(** * Crypto dashboard: a shallow embedding of [app.py]

    The dashboard has three layers: a number formatter
    ([format_big_number]), a market data client ([get_coins_list],
    [get_coin_history], [get_global_data]) and the view controller
    ([main]).  Values decoded from the upstream API are JSON values;
    failing Python operations raise exceptions, modelled by [result];
    the HTTP requests a pass sends and the widgets it draws are gathered
    in a trace.

    The [st.cache_data] decorators are left out: a cached call returns
    what an earlier run of the same function body returned, so an [Http]
    event stands for a call of the client function, which reaches the
    network unless the cache answers.  Calls into the presentation
    layer ([st.title], [st.metric], ...) are recorded and do not raise. *)

From Stdlib Require Import ZArith Bool List String Ascii Lia Floats DecimalString.
Import ListNotations.

#[local] Set Warnings "-register-all".

Open Scope string_scope.
Open Scope Z_scope.

(** ** Exceptions and results *)

Inductive exn : Type :=
| KeyError (key : string)
| TypeError
| ValueError
| OverflowError
| AttributeError
| JSONDecodeError
| RequestException
| OutOfBoundsDatetime.

Inductive result (A : Type) : Type :=
| Ok (a : A)
| Raise (e : exn).

Arguments Ok {A} a.
Arguments Raise {A} e.

Definition rbind {A B : Type} (r : result A) (k : A -> result B) : result B :=
  match r with
  | Ok a => k a
  | Raise e => Raise e
  end.

Declare Scope result_scope.
Delimit Scope result_scope with result.
Notation "x <- r ;; k" := (rbind r (fun x => k))
  (at level 61, r at next level, right associativity) : result_scope.

(** ** Decoded JSON values

    [response.json()] yields [None], [bool], [int], [float], [str],
    [list] and [dict] values.  A [dict] is kept as its members in
    insertion order (keys are distinct). *)

Inductive json : Type :=
| JNull
| JBool (b : bool)
| JInt (z : Z)
| JFloat (f : float)
| JStr (s : string)
| JArr (items : list json)
| JObj (members : list (string * json)).

Fixpoint assoc {A : Type} (k : string) (kvs : list (string * A)) : option A :=
  match kvs with
  | [] => None
  | (k', v) :: rest => if String.eqb k k' then Some v else assoc k rest
  end.

(** [v[key]] for a string key. *)
Definition subscript (v : json) (key : string) : result json :=
  match v with
  | JObj members =>
      match assoc key members with
      | Some x => Ok x
      | None => Raise (KeyError key)
      end
  | _ => Raise TypeError
  end.

(** Truth value, as tested by [if v:]. *)
Definition py_truthy (v : json) : bool :=
  match v with
  | JNull => false
  | JBool b => b
  | JInt z => negb (z =? 0)
  | JFloat f => negb (PrimFloat.eqb f 0%float)
  | JStr s => negb (String.eqb s "")
  | JArr items => match items with [] => false | _ => true end
  | JObj members => match members with [] => false | _ => true end
  end.

(** Strings are UTF-8; a character starts at every byte that is not a
    continuation byte. *)
Definition is_continuation (c : ascii) : bool :=
  let n := Z.of_N (N_of_ascii c) in (128 <=? n) && (n <? 192).

Fixpoint utf8_length (s : string) : Z :=
  match s with
  | EmptyString => 0
  | String c r => (if is_continuation c then 0 else 1) + utf8_length r
  end.

Fixpoint utf8_split (s : string) : string * list string :=
  match s with
  | EmptyString => ("", [])
  | String c r =>
      let (pending, done) := utf8_split r in
      if is_continuation c then (String c pending, done)
      else ("", String c pending :: done)
  end.

Definition utf8_chars (s : string) : list string :=
  let (pending, done) := utf8_split s in
  match pending with
  | EmptyString => done
  | _ => pending :: done
  end.

(** [len(v)]. *)
Definition py_len (v : json) : result Z :=
  match v with
  | JArr items => Ok (Z.of_nat (List.length items))
  | JObj members => Ok (Z.of_nat (List.length members))
  | JStr s => Ok (utf8_length s)
  | _ => Raise TypeError
  end.

(** The items a [for x in v] loop visits. *)
Definition py_iter (v : json) : result (list json) :=
  match v with
  | JArr items => Ok items
  | JObj members => Ok (map (fun kv => JStr (fst kv)) members)
  | JStr s => Ok (map JStr (utf8_chars s))
  | _ => Raise TypeError
  end.

(** *** Numbers *)

(** [float(z)] for an [int]: rounded to nearest even, [OverflowError]
    when out of range. *)
Definition float_of_int (z : Z) : result float :=
  match binary_normalize 53 1024 z 0 false with
  | S754_infinity _ => Raise OverflowError
  | sf => Ok (SF2Prim sf)
  end.

(** The integer a finite float denotes, if it denotes one. *)
Definition int_of_float (f : float) : option Z :=
  match Prim2SF f with
  | S754_zero _ => Some 0
  | S754_finite s m e =>
      let v := if s then Z.neg m else Z.pos m in
      if 0 <=? e then Some (v * 2 ^ e)
      else if v mod 2 ^ (- e) =? 0 then Some (v / 2 ^ (- e)) else None
  | _ => None
  end.

Inductive number : Type :=
| NInt (z : Z)
| NFloat (f : float).

Definition number_eq (a b : number) : bool :=
  match a, b with
  | NInt x, NInt y => x =? y
  | NFloat f, NFloat g => PrimFloat.eqb f g
  | NInt x, NFloat f | NFloat f, NInt x =>
      match int_of_float f with
      | Some y => x =? y
      | None => false
      end
  end.

(** [a == b] on decoded values: numbers by value ([True == 1 == 1.0]),
    strings exactly, lists item by item, dicts key by key. *)
Fixpoint py_eq (a b : json) {struct a} : bool :=
  match a, b with
  | JNull, JNull => true
  | JStr s, JStr t => String.eqb s t
  | JArr xs, JArr ys =>
      (fix items (xs ys : list json) {struct xs} : bool :=
         match xs, ys with
         | [], [] => true
         | x :: xs', y :: ys' => py_eq x y && items xs' ys'
         | _, _ => false
         end) xs ys
  | JObj kvs, JObj kws =>
      (List.length kvs =? List.length kws)%nat &&
      (fix members (kvs : list (string * json)) {struct kvs} : bool :=
         match kvs with
         | [] => true
         | (k, v) :: rest =>
             match assoc k kws with
             | Some w => py_eq v w
             | None => false
             end && members rest
         end) kvs
  | JBool x, JBool y => Bool.eqb x y
  | JBool x, JInt z | JInt z, JBool x => (if x then 1 else 0) =? z
  | JBool x, JFloat f | JFloat f, JBool x =>
      number_eq (NInt (if x then 1 else 0)) (NFloat f)
  | JInt x, JInt y => x =? y
  | JInt x, JFloat f | JFloat f, JInt x => number_eq (NInt x) (NFloat f)
  | JFloat f, JFloat g => PrimFloat.eqb f g
  | _, _ => false
  end.

(** *** Decimal rendering *)

Definition decimal (z : Z) : string := NilZero.string_of_int (Z.to_int z).

(** [a / b] rounded to nearest, ties to even ([0 <= a], [0 < b]). *)
Definition div_half_even (a b : Z) : Z :=
  let q := a / b in
  let r := a mod b in
  if 2 * r <? b then q
  else if b <? 2 * r then q + 1
  else if Z.even q then q else q + 1.

(** [|m * 2^e| * 10^d] rounded to an integer. *)
Definition scaled (d : nat) (m : positive) (e : Z) : Z :=
  let n := Z.pos m * 10 ^ Z.of_nat d in
  if 0 <=? e then n * 2 ^ e else div_half_even n (2 ^ (- e)).

Fixpoint zeros (n : nat) : string :=
  match n with
  | O => ""
  | S k => String "0" (zeros k)
  end.

(** [n] written with at least [d] digits. *)
Definition pad_left (d : nat) (n : Z) : string :=
  let s := decimal n in
  zeros (d - String.length s) ++ s.

Fixpoint group3_rev (digits : list ascii) (k : nat) : list ascii :=
  match digits with
  | [] => []
  | c :: rest =>
      match rest with
      | [] => [c]
      | _ => if Nat.eqb k 2 then c :: ","%char :: group3_rev rest 0
             else c :: group3_rev rest (S k)
      end
  end.

(** Thousands separators for a string of digits. *)
Definition group3 (s : string) : string :=
  string_of_list_ascii
    (rev (group3_rev (rev (list_ascii_of_string s)) 0)).

(** [f"{x:.df}"] ([comma = false]) and [f"{x:,.df}"] ([comma = true])
    for a float [x]: the exact binary value, correctly rounded to [d]
    decimals. *)
Definition format_fixed (comma : bool) (d : nat) (x : float) : string :=
  let body (s : bool) (n : Z) :=
    let whole := decimal (n / 10 ^ Z.of_nat d) in
    (if s then "-" else "") ++
    (if comma then group3 whole else whole) ++
    match d with
    | O => ""
    | _ => "." ++ pad_left d (n mod 10 ^ Z.of_nat d)
    end in
  match Prim2SF x with
  | S754_nan => "nan"
  | S754_infinity s => if s then "-inf" else "inf"
  | S754_zero s => body s 0
  | S754_finite s m e => body s (scaled d m e)
  end.

(** ** What the model leaves to the Python runtime

    Library behaviour that the program relies on but that is not fixed
    here: [str()] of floats and containers, [str.upper], [float()] of a
    string, and what pandas does with data outside the regular shapes
    described below. *)

Inductive Timestamp : Type :=
| NaT
| Time (ns : Z).

Record table : Type := {
  columns : list string;
  records : list (list (option json))
}.

Record runtime : Type := {
  str_other : json -> string;
  str_upper : string -> string;
  float_of_str : string -> result float;
  DataFrame_irregular : json -> result (list (json * json));
  DataFrame_records_irregular : json -> result table;
  to_datetime_irregular : list json -> result (list Timestamp)
}.

Section Formatter.

Variable rt : runtime.

(** [str(v)], as interpolated by [f"{v}"]. *)
Definition py_str (v : json) : string :=
  match v with
  | JNull => "None"
  | JBool b => if b then "True" else "False"
  | JInt z => decimal z
  | JStr s => s
  | _ => str_other rt v
  end.

(** [float(v)]. *)
Definition py_float (v : json) : result float :=
  match v with
  | JFloat f => Ok f
  | JInt z => float_of_int z
  | JBool b => Ok (if b then 1%float else 0%float)
  | JStr s => float_of_str rt s
  | JNull | JArr _ | JObj _ => Raise TypeError
  end.

(** [f"{v:.1f}"] for a decoded value. *)
Definition format_1f (v : json) : result string :=
  match v with
  | JFloat f => Ok (format_fixed false 1 f)
  | JInt z => (f <- float_of_int z ;; Ok (format_fixed false 1 f))%result
  | JBool b => Ok (format_fixed false 1 (if b then 1%float else 0%float))
  | JStr _ => Raise ValueError
  | JNull | JArr _ | JObj _ => Raise TypeError
  end.

(** *** [format_big_number] *)

Definition format_big_number (number : json) : result string :=
  match number with
  | JNull => Ok "N/A"
  | _ =>
      (value <- py_float number ;;
       if PrimFloat.leb 1000000000%float value then
         let formatted := PrimFloat.div value 1000000000%float in
         Ok ("€ " ++ format_fixed false 2 formatted ++ " Mrd.")
       else if PrimFloat.leb 1000000%float value then
         let formatted := PrimFloat.div value 1000000%float in
         Ok ("€ " ++ format_fixed false 2 formatted ++ " Mio.")
       else
         Ok ("€ " ++ format_fixed true 2 value))%result
  end.

End Formatter.

(** ** Requests, widgets and traces *)

Record request : Type := {
  url : string;
  params : list (string * json)
}.

(** A response: its status and what [response.json()] gives. *)
Record response : Type := {
  status_code : Z;
  body : result json
}.

(** A time-indexed frame with one value column. *)
Definition frame : Type := list (Timestamp * json).

Inductive widget : Type :=
| st_sidebar_title (text : string)
| st_sidebar_info (text : string)
| st_sidebar_selectbox (label : string) (options : list json)
| st_sidebar_write (text : string)
| st_sidebar_radio (label : string) (options : list string)
| st_warning (text : string)
| st_error (text : string) (e : exn)
| st_title (text : string)
| st_columns (n : Z)
| st_metric (column : Z) (label value : string) (delta : option json)
| st_write (text : string)
| st_subheader (text : string)
| st_dataframe (df : table)
| st_image (src : json) (width : Z)
| st_tabs (labels : list string)
| st_line_chart (series : frame)
| st_bar_chart (series : frame)
| st_area_chart (series : frame).

Inductive event : Type :=
| Http (r : request)
| Show (w : widget)
| Print (text : string).

(** A computation gives a value or raises, and leaves the events it
    produced up to that point. *)
Definition M (A : Type) : Type := (result A * list event)%type.

Definition ret {A : Type} (a : A) : M A := (Ok a, []).

Definition lift {A : Type} (r : result A) : M A := (r, []).

Definition emit (e : event) : M unit := (Ok tt, [e]).

Definition bind {A B : Type} (m : M A) (k : A -> M B) : M B :=
  match m with
  | (Ok a, t) => let (r, t') := k a in (r, (t ++ t')%list)
  | (Raise e, t) => (Raise e, t)
  end.

(** [try: body except Exception as e: handler]. *)
Definition try_except {A : Type} (body : M A) (handler : exn -> M A) : M A :=
  match body with
  | (Raise e, t) => let (r, t') := handler e in (r, (t ++ t')%list)
  | done => done
  end.

Definition outcome {A : Type} (m : M A) : result A := fst m.
Definition trace {A : Type} (m : M A) : list event := snd m.

Declare Scope monad_scope.
Delimit Scope monad_scope with M.
Notation "x <- m ;; k" := (bind m (fun x => k))
  (at level 61, m at next level, right associativity) : monad_scope.
Notation "' pat <- m ;; k" :=
  (bind m (fun x => match x with pat => k end))
  (at level 61, pat pattern, m at next level, right associativity) : monad_scope.
Notation "m ;; k" := (bind m (fun _ => k))
  (at level 61, right associativity) : monad_scope.

(** ** pandas on the regular shapes *)

(** Rows of a list of two-item lists. *)
Fixpoint pair_rows (rows : list json) : option (list (json * json)) :=
  match rows with
  | [] => Some []
  | JArr [t; v] :: rest => option_map (cons (t, v)) (pair_rows rest)
  | _ => None
  end.

Fixpoint int_cells (cells : list json) : option (list Z) :=
  match cells with
  | [] => Some []
  | JInt z :: rest => option_map (cons z) (int_cells rest)
  | _ => None
  end.

(** Milliseconds that fit a nanosecond timestamp. *)
Definition in_ns_range (ms : Z) : bool :=
  Z.abs (ms * 1000000) <=? 2 ^ 63 - 1.

Definition set_index (index : list Timestamp) (values : list json) : frame :=
  combine index values.

Fixpoint dict_rows (items : list json) : option (list (list (string * json))) :=
  match items with
  | [] => Some []
  | JObj members :: rest => option_map (cons members) (dict_rows rest)
  | _ => None
  end.

Definition add_key (cols : list string) (k : string) : list string :=
  if existsb (String.eqb k) cols then cols else (cols ++ [k])%list.

(** Column labels of a list of dicts: keys in order of first appearance. *)
Definition record_keys (rows : list (list (string * json))) : list string :=
  fold_left (fun cols members => fold_left add_key (map fst members) cols)
            rows [].

Fixpoint cell (cols : list string) (row : list (option json)) (c : string)
  : option json :=
  match cols, row with
  | c' :: cols', x :: row' => if String.eqb c c' then x else cell cols' row' c
  | _, _ => None
  end.

(** [df[wanted]]. *)
Definition select_columns (df : table) (wanted : list string) : result table :=
  match find (fun c => negb (existsb (String.eqb c) (columns df))) wanted with
  | Some missing => Raise (KeyError missing)
  | None =>
      Ok {| columns := wanted;
            records := map (fun row => map (cell (columns df) row) wanted)
                           (records df) |}
  end.

Section Pandas.

Variable rt : runtime.

(** [pd.DataFrame(data, columns=[a, b])]: no rows for [None] and for the
    empty list, one row per item for a list of two-item lists. *)
Definition pd_DataFrame (data : json) : result (list (json * json)) :=
  match data with
  | JNull => Ok []
  | JArr rows =>
      match pair_rows rows with
      | Some df => Ok df
      | None => DataFrame_irregular rt data
      end
  | _ => DataFrame_irregular rt data
  end.

(** [pd.to_datetime(column, unit='ms')] for a column of ints. *)
Definition pd_to_datetime (cells : list json) : result (list Timestamp) :=
  match int_cells cells with
  | Some ms =>
      if forallb in_ns_range ms
      then Ok (map (fun z => Time (z * 1000000)) ms)
      else Raise OutOfBoundsDatetime
  | None => to_datetime_irregular rt cells
  end.

(** The three statements that build one frame of [get_coin_history]:
    construct, convert the timestamp column, index by it. *)
Definition time_indexed (data : json) : result frame :=
  (df <- pd_DataFrame data ;;
   ts <- pd_to_datetime (map fst df) ;;
   Ok (set_index ts (map snd df)))%result.

(** [pd.DataFrame(data)] for a list of dicts; a missing key is a missing
    cell. *)
Definition pd_DataFrame_records (data : json) : result table :=
  match data with
  | JArr items =>
      match dict_rows items with
      | Some rows =>
          let cols := record_keys rows in
          Ok {| columns := cols;
                records := map (fun members =>
                                  map (fun c => assoc c members) cols) rows |}
      | None => DataFrame_records_irregular rt data
      end
  | _ => DataFrame_records_irregular rt data
  end.

End Pandas.

(** ** The market data client *)

Definition BASE_URL : string := "https://api.coingecko.com/api/v3".

Definition sentinel : option frame * option frame * option frame :=
  (None, None, None).

Section Client.

Variable rt : runtime.

(** What the upstream API answers to each request: a response, or a
    transport failure raised by [requests.get]. *)
Variable upstream : request -> result response.

Definition requests_get (u : string) (ps : list (string * json)) : M response :=
  let r := {| url := u; params := ps |} in (upstream r, [Http r]).

Definition response_json (r : response) : M json := lift (body r).

Definition get_coins_list : M json :=
  let url := BASE_URL ++ "/coins/markets" in
  let params := [("vs_currency", JStr "eur");
                 ("order", JStr "market_cap_desc");
                 ("per_page", JInt 100);
                 ("page", JInt 1)] in
  try_except
    (response <- requests_get url params ;;
     if status_code response =? 200 then response_json response
     else (emit (Print "Error loading coins") ;; ret (JArr [])))%M
    (fun e =>
       emit (Show (st_error "Error connecting to API: " e)) ;;
       ret (JArr []))%M.

Definition get_coin_history (coin_id : json) (days : Z)
  : M (option frame * option frame * option frame) :=
  let url := BASE_URL ++ "/coins/" ++ py_str rt coin_id ++ "/market_chart" in
  let params := [("vs_currency", JStr "eur"); ("days", JInt days)] in
  try_except
    (response <- requests_get url params ;;
     data <- response_json response ;;
     prices_data <- lift (subscript data "prices") ;;
     df_prices <- lift (time_indexed rt prices_data) ;;
     caps_data <- lift (subscript data "market_caps") ;;
     df_caps <- lift (time_indexed rt caps_data) ;;
     vol_data <- lift (subscript data "total_volumes") ;;
     df_vol <- lift (time_indexed rt vol_data) ;;
     ret (Some df_prices, Some df_caps, Some df_vol))%M
    (fun _ => ret sentinel).

Definition get_global_data : M json :=
  try_except
    (response <- requests_get (BASE_URL ++ "/global") [] ;;
     if status_code response =? 200 then
       (data <- response_json response ;; lift (subscript data "data"))
     else ret JNull)%M
    (fun _ => ret JNull).

End Client.

(** The timeframe mapping of [main]: [days_int] from [days_option]. *)
Definition days_int_of (days_option : string) : Z :=
  if String.eqb days_option "30 Days" then 30
  else if String.eqb days_option "90 Days" then 90
  else 7.

(** ** The view controller *)

Definition GLOBAL_OVERVIEW : json := JStr "Global Overview".

(** The name loop of [main]: [coin['name']] for every coin, in order. *)
Fixpoint collect_names (coins : list json) : result (list json) :=
  match coins with
  | [] => Ok []
  | coin :: rest =>
      (name <- subscript coin "name" ;;
       names <- collect_names rest ;;
       Ok (name :: names))%result
  end.

(** The lookup loop of [main]: the first coin whose name equals the
    selection, [None] when the loop ends without a match. *)
Fixpoint find_coin (coins : list json) (selection : json) : result json :=
  match coins with
  | [] => Ok JNull
  | coin :: rest =>
      (name <- subscript coin "name" ;;
       if py_eq name selection then Ok coin else find_coin rest selection)%result
  end.

(** [df['column']] on what [get_coin_history] returned. *)
Definition column (df : option frame) : result frame :=
  match df with
  | Some f => Ok f
  | None => Raise TypeError
  end.

Definition TABLE_COLUMNS : list string :=
  ["name"; "symbol"; "current_price"; "price_change_percentage_24h";
   "market_cap"].

Section View.

Variable rt : runtime.
Variable upstream : request -> result response.

(** [v.upper()]. *)
Definition upper (v : json) : result string :=
  match v with
  | JStr s => Ok (str_upper rt s)
  | _ => Raise AttributeError
  end.

Definition global_view (coins_data : json) : M unit :=
  (emit (Show (st_title "Global Crypto Market")) ;;
   global_stats <- get_global_data upstream ;;
   (if py_truthy global_stats then
      caps <- lift (subscript global_stats "total_market_cap") ;;
      total_mcap <- lift (subscript caps "eur") ;;
      vols <- lift (subscript global_stats "total_volume") ;;
      total_vol <- lift (subscript vols "eur") ;;
      shares <- lift (subscript global_stats "market_cap_percentage") ;;
      btc_percentage <- lift (subscript shares "btc") ;;
      emit (Show (st_columns 3)) ;;
      mcap <- lift (format_big_number rt total_mcap) ;;
      emit (Show (st_metric 1 "Market Cap" mcap None)) ;;
      vol <- lift (format_big_number rt total_vol) ;;
      emit (Show (st_metric 2 "Volume (24h)" vol None)) ;;
      btc <- lift (format_1f btc_percentage) ;;
      emit (Show (st_metric 3 "BTC Dominance" (btc ++ " %") None))
    else ret tt) ;;
   emit (Show (st_write "---")) ;;
   emit (Show (st_subheader "Top 100 Rankings")) ;;
   df <- lift (pd_DataFrame_records rt coins_data) ;;
   simple_df <- lift (select_columns df TABLE_COLUMNS) ;;
   emit (Show (st_dataframe simple_df)))%M.

(** The body of [if selected_coin:], for the coin the lookup found. *)
Definition show_coin (selected_coin : json) (days_int : Z) : M unit :=
  (name <- lift (subscript selected_coin "name") ;;
   symbol <- lift (subscript selected_coin "symbol") ;;
   SYMBOL <- lift (upper symbol) ;;
   emit (Show (st_title (py_str rt name ++ " (" ++ SYMBOL ++ ")"))) ;;
   image <- lift (subscript selected_coin "image") ;;
   emit (Show (st_image image 64)) ;;
   price <- lift (subscript selected_coin "current_price") ;;
   change <- lift (subscript selected_coin "price_change_percentage_24h") ;;
   high <- lift (subscript selected_coin "high_24h") ;;
   emit (Show (st_columns 3)) ;;
   emit (Show (st_metric 1 "Current Price" ("€ " ++ py_str rt price) None)) ;;
   emit (Show (st_metric 2 "24h Change" (py_str rt change ++ " %")
                         (Some change))) ;;
   emit (Show (st_metric 3 "24h High" ("€ " ++ py_str rt high) None)) ;;
   emit (Show (st_write "---")) ;;
   emit (Show (st_subheader ("History (" ++ decimal days_int ++ " Days)"))) ;;
   coin_id <- lift (subscript selected_coin "id") ;;
   '(df_price, df_cap, df_vol) <- get_coin_history rt upstream coin_id days_int ;;
   match df_price with
   | Some _ =>
       emit (Show (st_tabs ["Price Chart"; "Volume & Cap"])) ;;
       prices <- lift (column df_price) ;;
       emit (Show (st_line_chart prices)) ;;
       volumes <- lift (column df_vol) ;;
       emit (Show (st_bar_chart volumes)) ;;
       caps <- lift (column df_cap) ;;
       emit (Show (st_area_chart caps))
   | None =>
       emit (Show (st_warning
         "Could not load chart data. API limit might be reached."))
   end)%M.

(** The [else] branch of [main]: look the selection up, then show it. *)
Definition detail_view (coins_data selection : json) (days_int : Z) : M unit :=
  (coins <- lift (py_iter coins_data) ;;
   selected_coin <- lift (find_coin coins selection) ;;
   if py_truthy selected_coin then show_coin selected_coin days_int
   else ret tt)%M.

(** One render pass.  [selection] and [days_option] are what the select
    box and the radio group return in this pass. *)
Definition main (selection : json) (days_option : string) : M unit :=
  (emit (Show (st_sidebar_title "Navigation")) ;;
   emit (Show (st_sidebar_info
     "Developed by Bassel Abdelmottaleb for HBKU application.")) ;;
   coins_data <- get_coins_list upstream ;;
   n <- lift (py_len coins_data) ;;
   if n =? 0 then
     emit (Show (st_warning "Could not load data. Please refresh later."))
   else
     coins <- lift (py_iter coins_data) ;;
     names <- lift (collect_names coins) ;;
     let coin_names := GLOBAL_OVERVIEW :: names in
     emit (Show (st_sidebar_selectbox "Choose View" coin_names)) ;;
     emit (Show (st_sidebar_write "---")) ;;
     emit (Show (st_sidebar_radio "Timeframe" ["7 Days"; "30 Days"; "90 Days"])) ;;
     let days_int := days_int_of days_option in
     if py_eq selection GLOBAL_OVERVIEW then global_view coins_data
     else detail_view coins_data selection days_int)%M.

End View.

(** ** Vocabulary of the statements

    *** Requests and results of the client *)

Definition markets_request : request :=
  {| url := BASE_URL ++ "/coins/markets";
     params := [("vs_currency", JStr "eur");
                ("order", JStr "market_cap_desc");
                ("per_page", JInt 100);
                ("page", JInt 1)] |}.

Definition global_request : request :=
  {| url := BASE_URL ++ "/global"; params := [] |}.

Definition history_request (rt : runtime) (coin_id : json) (days : Z) : request :=
  {| url := BASE_URL ++ "/coins/" ++ py_str rt coin_id ++ "/market_chart";
     params := [("vs_currency", JStr "eur"); ("days", JInt days)] |}.

Definition or_else {A : Type} (r : result A) (default : A) : A :=
  match r with
  | Ok a => a
  | Raise _ => default
  end.

(** The part of [get_coin_history] between [response.json()] and
    [return]. *)
Definition parse_history (rt : runtime) (data : json)
  : result (option frame * option frame * option frame) :=
  (prices_data <- subscript data "prices" ;;
   df_prices <- time_indexed rt prices_data ;;
   caps_data <- subscript data "market_caps" ;;
   df_caps <- time_indexed rt caps_data ;;
   vol_data <- subscript data "total_volumes" ;;
   df_vol <- time_indexed rt vol_data ;;
   Ok (Some df_prices, Some df_caps, Some df_vol))%result.

(** The history frames of a pass: what [get_coin_history] returned. *)
Definition fetched (rt : runtime) (upstream : request -> result response)
           (coin_id : json) (days : Z)
  : option frame * option frame * option frame :=
  or_else (outcome (get_coin_history rt upstream coin_id days)) sentinel.

(** What [get_coins_list] leaves after its request: the console line
    on a status other than 200, the error box on an exception. *)
Definition coins_list_notes (answer : result response) : list event :=
  match answer with
  | Ok r =>
      if status_code r =? 200 then
        match body r with
        | Ok _ => []
        | Raise e => [Show (st_error "Error connecting to API: " e)]
        end
      else [Print "Error loading coins"]
  | Raise e => [Show (st_error "Error connecting to API: " e)]
  end.

(** Rows of [[ms, value]] items with integer milliseconds in range: the
    frames such arrays give. *)
Fixpoint points_of (rows : list json) : option frame :=
  match rows with
  | [] => Some []
  | JArr [JInt ms; v] :: rest =>
      if in_ns_range ms
      then option_map (cons (Time (ms * 1000000), v)) (points_of rest)
      else None
  | _ => None
  end.

(** *** The contract the specification states for [get_coin_history]

    Written after the specification, not after the code: the failure
    sentinel, or three series of equal non-zero length with strictly
    increasing timestamps. *)

Fixpoint strictly_increasing (ts : list Timestamp) : bool :=
  match ts with
  | [] => true
  | Time a :: rest =>
      match rest with
      | [] => true
      | Time b :: _ => (a <? b) && strictly_increasing rest
      | NaT :: _ => false
      end
  | NaT :: _ => false
  end.

Definition well_formed_series (f : frame) (n : nat) : bool :=
  Nat.eqb (List.length f) n && negb (Nat.eqb n 0) &&
  strictly_increasing (map fst f).

Definition history_contract (r : option frame * option frame * option frame)
  : bool :=
  match r with
  | (None, None, None) => true
  | (Some p, Some c, Some v) =>
      well_formed_series p (List.length p) &&
      well_formed_series c (List.length p) &&
      well_formed_series v (List.length p)
  | _ => false
  end.

(** *** Event lists of a pass *)

Definition header : list event :=
  [Show (st_sidebar_title "Navigation");
   Show (st_sidebar_info
           "Developed by Bassel Abdelmottaleb for HBKU application.")].

Definition sidebar (names : list json) : list event :=
  [Show (st_sidebar_selectbox "Choose View" (GLOBAL_OVERVIEW :: names));
   Show (st_sidebar_write "---");
   Show (st_sidebar_radio "Timeframe" ["7 Days"; "30 Days"; "90 Days"])].

Definition could_not_load : list event :=
  [Show (st_warning "Could not load data. Please refresh later.")].

Definition coin_widgets (rt : runtime) (name : json) (symbol : string)
           (image price change high : json) (days_int : Z) : list event :=
  [Show (st_title (py_str rt name ++ " (" ++ str_upper rt symbol ++ ")"));
   Show (st_image image 64);
   Show (st_columns 3);
   Show (st_metric 1 "Current Price" ("€ " ++ py_str rt price) None);
   Show (st_metric 2 "24h Change" (py_str rt change ++ " %") (Some change));
   Show (st_metric 3 "24h High" ("€ " ++ py_str rt high) None);
   Show (st_write "---");
   Show (st_subheader ("History (" ++ decimal days_int ++ " Days)"))].

Definition chart_unavailable : list event :=
  [Show (st_warning "Could not load chart data. API limit might be reached.")].

(** What follows the history request: the three charts when the series
    came back, the notice when they did not. *)
Definition charts (frames : option frame * option frame * option frame)
  : list event :=
  match frames with
  | (Some df_price, Some df_cap, Some df_vol) =>
      [Show (st_tabs ["Price Chart"; "Volume & Cap"]);
       Show (st_line_chart df_price);
       Show (st_bar_chart df_vol);
       Show (st_area_chart df_cap)]
  | _ => chart_unavailable
  end.

Definition global_widgets (simple_df : table) : list event :=
  [Show (st_write "---");
   Show (st_subheader "Top 100 Rankings");
   Show (st_dataframe simple_df)].

Definition is_chart (e : event) : bool :=
  match e with
  | Show (st_line_chart _) | Show (st_bar_chart _) | Show (st_area_chart _) =>
      true
  | _ => false
  end.

(** Events a pass on the global view may leave: the two requests it
    makes, its own title, metrics and table, and no widget of the detail
    view. *)
Definition global_pass_event (e : event) : Prop :=
  match e with
  | Http r => r = markets_request \/ r = global_request
  | Show (st_title text) => text = "Global Crypto Market"
  | Show (st_subheader text) => text = "Top 100 Rankings"
  | Show (st_metric _ label _ _) =>
      label = "Market Cap" \/ label = "Volume (24h)" \/
      label = "BTC Dominance"
  | Show (st_image _ _) | Show (st_tabs _)
  | Show (st_line_chart _) | Show (st_bar_chart _) | Show (st_area_chart _) =>
      False
  | _ => True
  end.

(** *** Well-formed upstream data *)

Definition is_ok {A : Type} (r : result A) : bool :=
  match r with
  | Ok _ => true
  | Raise _ => false
  end.

Definition COIN_FIELDS : list string :=
  ["name"; "symbol"; "image"; "current_price";
   "price_change_percentage_24h"; "high_24h"; "id"; "market_cap"].

(** A coin with every field the two views read, its symbol a string. *)
Definition well_formed_coin (coin : json) : bool :=
  forallb (fun key => is_ok (subscript coin key)) COIN_FIELDS &&
  match subscript coin "symbol" with
  | Ok (JStr _) => true
  | _ => false
  end.

(** A number [float()] accepts: a float, a bool, an int in range. *)
Definition numeric (v : json) : bool :=
  match v with
  | JFloat _ | JBool _ => true
  | JInt z => is_ok (float_of_int z)
  | _ => false
  end.

(** [stats[group][key]]. *)
Definition figure (stats : json) (group key : string) : result json :=
  (entries <- subscript stats group ;; subscript entries key)%result.

(** Global stats that are absent, or whose three figures are there: the
    two amounts numbers or [None], the share a number. *)
Definition well_formed_stats (stats : json) : bool :=
  negb (py_truthy stats) ||
  (match figure stats "total_market_cap" "eur" with
   | Ok JNull => true
   | Ok v => numeric v
   | Raise _ => false
   end &&
   match figure stats "total_volume" "eur" with
   | Ok JNull => true
   | Ok v => numeric v
   | Raise _ => false
   end &&
   match figure stats "market_cap_percentage" "btc" with
   | Ok v => numeric v
   | Raise _ => false
   end).

Definition has_column (cols : list string) (c : string) : bool :=
  existsb (String.eqb c) cols.

(** ** Sample upstream data *)

(** A sample runtime: ASCII upper-casing, and failure for the rest of
    what the model leaves open; the runs below never reach it. *)
Definition ascii_upper (c : ascii) : ascii :=
  let n := N_of_ascii c in
  if ((97 <=? n) && (n <=? 122))%N then ascii_of_N (n - 32) else c.

Fixpoint ascii_upper_string (s : string) : string :=
  match s with
  | EmptyString => EmptyString
  | String c r => String (ascii_upper c) (ascii_upper_string r)
  end.

Definition rt0 : runtime := {|
  str_other := fun _ => "";
  str_upper := ascii_upper_string;
  float_of_str := fun _ => Raise ValueError;
  DataFrame_irregular := fun _ => Raise ValueError;
  DataFrame_records_irregular := fun _ => Raise ValueError;
  to_datetime_irregular := fun _ => Raise ValueError
|}.

(** An upstream that answers the three endpoints with the given
    outcomes. *)
Definition serve (markets global history : result response) (r : request)
  : result response :=
  if String.eqb (url r) (BASE_URL ++ "/coins/markets") then markets
  else if String.eqb (url r) (BASE_URL ++ "/global") then global
  else history.

Definition ok200 (v : json) : result response :=
  Ok {| status_code := 200; body := Ok v |}.

Definition bitcoin : json :=
  JObj [("id", JStr "bitcoin"); ("symbol", JStr "btc");
        ("name", JStr "Bitcoin"); ("image", JStr "bitcoin.png");
        ("current_price", JInt 50000); ("market_cap", JInt 980000000000);
        ("high_24h", JInt 51000);
        ("price_change_percentage_24h", JFloat (-2.5)%float)].

Definition ethereum : json :=
  JObj [("id", JStr "ethereum"); ("symbol", JStr "eth");
        ("name", JStr "Ethereum"); ("image", JStr "ethereum.png");
        ("current_price", JInt 3000); ("market_cap", JInt 360000000000);
        ("high_24h", JInt 3100);
        ("price_change_percentage_24h", JInt 1)].

(** A second coin named "Bitcoin". *)
Definition bitcoin_twin : json :=
  JObj [("id", JStr "bitcoin-twin"); ("symbol", JStr "btt");
        ("name", JStr "Bitcoin"); ("image", JStr "twin.png");
        ("current_price", JInt 1); ("market_cap", JInt 1000);
        ("high_24h", JInt 2);
        ("price_change_percentage_24h", JInt 0)].

(** A coin named "Global Overview". *)
Definition impostor : json :=
  JObj [("id", JStr "global-overview"); ("symbol", JStr "go");
        ("name", JStr "Global Overview"); ("image", JStr "go.png");
        ("current_price", JInt 1); ("market_cap", JInt 1000);
        ("high_24h", JInt 2);
        ("price_change_percentage_24h", JInt 0)].

Definition global_body : json :=
  JObj [("data", JObj [
    ("total_market_cap", JObj [("eur", JInt 2500000000000)]);
    ("total_volume", JObj [("eur", JInt 90000000000)]);
    ("market_cap_percentage", JObj [("btc", JFloat 52.5%float)])])].

(** Global stats whose market cap has no ['eur'] entry. *)
Definition stats_without_eur : json :=
  JObj [("data", JObj [
    ("total_market_cap", JObj [("usd", JInt 2700000000000)]);
    ("total_volume", JObj [("eur", JInt 90000000000)]);
    ("market_cap_percentage", JObj [("btc", JFloat 52.5%float)])])].

Definition point (ms value : Z) : json := JArr [JInt ms; JInt value].

Definition history_body : json :=
  JObj [("prices", JArr [point 1000 10; point 2000 20]);
        ("market_caps", JArr [point 1000 5; point 2000 6]);
        ("total_volumes", JArr [point 1000 1; point 2000 2])].

(** The frames of [history_body]. *)
Definition history_frames : option frame * option frame * option frame :=
  (Some [(Time 1000000000, JInt 10); (Time 2000000000, JInt 20)],
   Some [(Time 1000000000, JInt 5); (Time 2000000000, JInt 6)],
   Some [(Time 1000000000, JInt 1); (Time 2000000000, JInt 2)]).

(** A body whose three arrays have 2, 1 and 3 points, the prices in
    descending time order, and its frames. *)
Definition ragged_history : json :=
  JObj [("prices", JArr [point 2000 10; point 1000 20]);
        ("market_caps", JArr [point 1000 5]);
        ("total_volumes", JArr [point 1000 1; point 2000 2; point 3000 3])].

Definition ragged_result : option frame * option frame * option frame :=
  (Some [(Time 2000000000, JInt 10); (Time 1000000000, JInt 20)],
   Some [(Time 1000000000, JInt 5)],
   Some [(Time 1000000000, JInt 1); (Time 2000000000, JInt 2);
         (Time 3000000000, JInt 3)]).

Definition three_coins : request -> result response :=
  serve (ok200 (JArr [ethereum; bitcoin; bitcoin_twin]))
        (ok200 global_body) (ok200 history_body).

Definition with_impostor : request -> result response :=
  serve (ok200 (JArr [bitcoin; impostor]))
        (ok200 global_body) (ok200 history_body).

(** The history endpoint is unreachable. *)
Definition history_down : request -> result response :=
  serve (ok200 (JArr [bitcoin])) (ok200 global_body) (Raise RequestException).

(** *** More vocabulary: the requests of a trace *)

(** The requests sent in a trace, in order. *)
Definition requests_of (t : list event) : list request :=
  flat_map (fun e => match e with Http r => [r] | _ => [] end) t.

(** *** More vocabulary: history rows *)





Definition is_scalar (v : json) : bool :=
  match v with
  | JNull | JBool _ | JInt _ | JFloat _ => true
  | _ => false
  end.

(** Widgets a pass on a coin may draw: no ranking table or heading, and
    of the metrics only the coin's three. *)
Definition detail_pass_widget (e : event) : Prop :=
  match e with
  | Show (st_dataframe _) => False
  | Show (st_subheader text) => text <> "Top 100 Rankings"
  | Show (st_metric _ label _ _) =>
      label = "Current Price" \/ label = "24h Change" \/ label = "24h High"
  | _ => True
  end.

(** The metrics panel of the global view. *)
Definition metrics_panel (mcap vol share : string) : list event :=
  [Show (st_columns 3);
   Show (st_metric 1 "Market Cap" mcap None);
   Show (st_metric 2 "Volume (24h)" vol None);
   Show (st_metric 3 "BTC Dominance" (share ++ " %") None)].

(** A coin whose symbol is [null], alone in the list. *)
Definition nova : json := JObj [("name", JStr "Nova"); ("symbol", JNull)].

Definition nova_only : request -> result response :=
  fun _ => ok200 (JArr [nova]).

(** Global stats with no market cap and no BTC share. *)
Definition sparse_stats : json :=
  JObj [("total_market_cap", JObj [("eur", JNull)]);
        ("total_volume", JObj [("eur", JInt 90000000000)]);
        ("market_cap_percentage", JObj [("btc", JNull)])].

Definition sparse_upstream : request -> result response :=
  fun _ => ok200 (JObj [("data", sparse_stats)]).

(** The number [format_big_number] renders: the value, in billions or
    millions where it abbreviates. *)
Definition shown_number (value : float) : float :=
  if PrimFloat.leb 1000000000%float value then (value / 1000000000)%float
  else if PrimFloat.leb 1000000%float value then (value / 1000000)%float
  else value.

Definition is_finite (x : float) : bool :=
  match Prim2SF x with
  | S754_zero _ | S754_finite _ _ _ => true
  | _ => false
  end.

(** * Properties

    ** Running computations *)

Lemma outcome_bind {A B : Type} (m : M A) (k : A -> M B) :
  outcome (bind m k) = rbind (outcome m) (fun a => outcome (k a)).
Proof.
  destruct m as [[a | e] t]; simpl; [destruct (k a) | ]; reflexivity.
Qed.

Lemma trace_bind {A B : Type} (m : M A) (k : A -> M B) :
  trace (bind m k) =
  (trace m ++ match outcome m with
              | Ok a => trace (k a)
              | Raise _ => []
              end)%list.
Proof.
  destruct m as [[a | e] t]; simpl.
  - destruct (k a); reflexivity.
  - now rewrite app_nil_r.
Qed.

Lemma outcome_try {A : Type} (body : M A) (handler : exn -> M A) :
  outcome (try_except body handler) =
  match outcome body with
  | Ok a => Ok a
  | Raise e => outcome (handler e)
  end.
Proof.
  destruct body as [[a | e] t]; simpl; [ | destruct (handler e)]; reflexivity.
Qed.

Lemma trace_try {A : Type} (body : M A) (handler : exn -> M A) :
  trace (try_except body handler) =
  (trace body ++ match outcome body with
                 | Ok _ => []
                 | Raise e => trace (handler e)
                 end)%list.
Proof.
  destruct body as [[a | e] t]; simpl.
  - now rewrite app_nil_r.
  - destruct (handler e); reflexivity.
Qed.

Lemma outcome_lift {A : Type} (r : result A) : outcome (lift r) = r.
Proof. reflexivity. Qed.

Lemma trace_lift {A : Type} (r : result A) : trace (lift r) = [].
Proof. reflexivity. Qed.

Lemma outcome_ret {A : Type} (a : A) : outcome (ret a) = Ok a.
Proof. reflexivity. Qed.

Lemma trace_ret {A : Type} (a : A) : trace (ret a) = [].
Proof. reflexivity. Qed.

Lemma outcome_emit (e : event) : outcome (emit e) = Ok tt.
Proof. reflexivity. Qed.

Lemma trace_emit (e : event) : trace (emit e) = [e].
Proof. reflexivity. Qed.

Lemma outcome_get upstream u ps :
  outcome (requests_get upstream u ps) = upstream {| url := u; params := ps |}.
Proof. reflexivity. Qed.

Lemma trace_get upstream u ps :
  trace (requests_get upstream u ps) = [Http {| url := u; params := ps |}].
Proof. reflexivity. Qed.

Lemma outcome_json (r : response) : outcome (response_json r) = body r.
Proof. reflexivity. Qed.

Lemma trace_json (r : response) : trace (response_json r) = [].
Proof. reflexivity. Qed.

Create Rewrite HintDb run.

#[local] Hint Rewrite @outcome_bind @outcome_try @outcome_lift @outcome_ret
  outcome_emit outcome_get outcome_json : run.
#[local] Hint Rewrite @trace_bind @trace_try @trace_lift @trace_ret
  trace_emit trace_get trace_json : run.

Lemma M_eq {A : Type} (m : M A) (r : result A) (t : list event) :
  outcome m = r -> trace m = t -> m = (r, t).
Proof. destruct m; simpl; congruence. Qed.

Lemma M_ext {A : Type} (m m' : M A) :
  outcome m = outcome m' -> trace m = trace m' -> m = m'.
Proof. destruct m, m'; simpl; congruence. Qed.

Ltac run := repeat (progress (autorewrite with run; cbn [rbind])).

(** ** The timeframe mapping *)

(** C6: "7 Days", "30 Days" and "90 Days" map to 7, 30 and 90; every
    other label maps to 7. *)
Theorem days_int_of_spec :
  days_int_of "7 Days" = 7 /\
  days_int_of "30 Days" = 30 /\
  days_int_of "90 Days" = 90 /\
  forall label : string,
    label <> "7 Days" -> label <> "30 Days" -> label <> "90 Days" ->
    days_int_of label = 7.
Proof.
  repeat split; intros label _ H30 H90.
  unfold days_int_of.
  destruct (String.eqb_spec label "30 Days"); [contradiction | ].
  destruct (String.eqb_spec label "90 Days"); [contradiction | reflexivity].
Qed.

Lemma days_int_of_spec_witness : days_int_of "1 Year" = 7.
Proof.
  apply (proj2 (proj2 (proj2 days_int_of_spec))); discriminate.
Defined.

(** ** The number formatter *)

Lemma SFcompare_antisym (x y : spec_float) :
  SFcompare y x = option_map CompOpp (SFcompare x y).
Proof.
  destruct x as [sx | sx | | sx mx ex], y as [sy | sy | | sy my ey];
    simpl; try reflexivity;
    try (destruct sx; reflexivity); try (destruct sy; reflexivity);
    try (destruct sx, sy; reflexivity).
  f_equal.
  rewrite (Z.compare_antisym ex ey).
  change (Pos.compare_cont Eq my mx) with (Pos.compare my mx).
  change (Pos.compare_cont Eq mx my) with (Pos.compare mx my).
  rewrite (Pos.compare_antisym mx my).
  destruct sx, sy; simpl; try reflexivity;
    destruct (ex ?= ey); simpl; try reflexivity;
    destruct (mx ?= my)%positive; reflexivity.
Qed.

Lemma ltb_not_leb (x y : float) :
  PrimFloat.ltb x y = true -> PrimFloat.leb y x = false.
Proof.
  rewrite ltb_spec, leb_spec. unfold SFltb, SFleb.
  rewrite (SFcompare_antisym (Prim2SF x) (Prim2SF y)).
  destruct (SFcompare (Prim2SF x) (Prim2SF y)) as [[ | | ] | ];
    simpl; congruence.
Qed.

Lemma million_spec :
  Prim2SF 1000000%float = S754_finite false 8589934592000000 (-33).
Proof. vm_compute. reflexivity. Qed.

Lemma billion_spec :
  Prim2SF 1000000000%float = S754_finite false 8388608000000000 (-23).
Proof. vm_compute. reflexivity. Qed.

Lemma below_million_below_billion (x : float) :
  PrimFloat.ltb x 1000000%float = true ->
  PrimFloat.ltb x 1000000000%float = true.
Proof.
  rewrite !ltb_spec. unfold SFltb.
  rewrite million_spec, billion_spec.
  destruct (Prim2SF x) as [s | s | | s m e]; cbn [SFcompare]; try congruence.
  destruct s; [congruence | ].
  destruct (e ?= -33) eqn:He; try congruence.
  - apply Z.compare_eq in He. subst e. reflexivity.
  - rewrite Z.compare_lt_iff in He.
    assert (Hlt : (e ?= -23) = Lt) by (apply Z.compare_lt_iff; lia).
    now rewrite Hlt.
Qed.

(** C3: [None] gives "N/A"; a value of at least 1e9 is divided by 1e9 and
    shown with two decimals and " Mrd."; a value in [1e6, 1e9) is
    divided by 1e6 and shown with two decimals and " Mio."; a value
    below 1e6 is shown with thousands separators and two decimals; the
    currency sign leads in every numeric case. *)
Theorem format_big_number_spec (rt : runtime) :
  format_big_number rt JNull = Ok "N/A" /\
  (forall (number : json) (value : float),
     py_float rt number = Ok value ->
     (PrimFloat.leb 1000000000%float value = true ->
      format_big_number rt number =
      Ok ("€ " ++ format_fixed false 2 (value / 1000000000)%float ++ " Mrd."))
     /\
     (PrimFloat.leb 1000000%float value = true ->
      PrimFloat.ltb value 1000000000%float = true ->
      format_big_number rt number =
      Ok ("€ " ++ format_fixed false 2 (value / 1000000)%float ++ " Mio."))
     /\
     (PrimFloat.ltb value 1000000%float = true ->
      format_big_number rt number = Ok ("€ " ++ format_fixed true 2 value)))
  /\ format_big_number rt (JInt 2500000000) = Ok "€ 2.50 Mrd."
  /\ format_big_number rt (JInt 1200000) = Ok "€ 1.20 Mio."
  /\ format_big_number rt (JInt 999) = Ok "€ 999.00".
Proof.
  split; [reflexivity | ].
  split; [ | repeat split; vm_compute; reflexivity].
  intros number value Hvalue.
  assert (Hrun : format_big_number rt number =
                 if PrimFloat.leb 1000000000%float value then
                   Ok ("€ " ++ format_fixed false 2 (value / 1000000000)%float
                            ++ " Mrd.")
                 else if PrimFloat.leb 1000000%float value then
                   Ok ("€ " ++ format_fixed false 2 (value / 1000000)%float
                            ++ " Mio.")
                 else Ok ("€ " ++ format_fixed true 2 value)).
  { destruct number; try discriminate Hvalue;
      unfold format_big_number; rewrite Hvalue; reflexivity. }
  rewrite Hrun. repeat split.
  - intros Hb. now rewrite Hb.
  - intros Hm Hb. now rewrite (ltb_not_leb _ _ Hb), Hm.
  - intros Hm.
    rewrite (ltb_not_leb _ _ (below_million_below_billion _ Hm)).
    now rewrite (ltb_not_leb _ _ Hm).
Qed.

Lemma format_big_number_spec_witness :
  format_big_number rt0 (JFloat 1234567.5%float) = Ok "€ 1.23 Mio." /\
  format_big_number rt0 (JFloat 1234.5%float) = Ok "€ 1,234.50" /\
  format_big_number rt0 (JInt 7300000000) = Ok "€ 7.30 Mrd.".
Proof.
  pose proof (proj1 (proj2 (format_big_number_spec rt0))) as H.
  split; [ | split].
  - apply (proj1 (proj2 (H (JFloat 1234567.5%float) 1234567.5%float eq_refl)));
      vm_compute; reflexivity.
  - apply (proj2 (proj2 (H (JFloat 1234.5%float) 1234.5%float eq_refl)));
      vm_compute; reflexivity.
  - assert (Hv : py_float rt0 (JInt 7300000000) = Ok 7300000000%float)
      by (vm_compute; reflexivity).
    apply (proj1 (H _ _ Hv)); vm_compute; reflexivity.
Defined.
(** *** Two decimals *)

Lemma pad_left_two (n : Z) :
  0 <= n < 100 -> String.length (pad_left 2 n) = 2%nat.
Proof.
  intros Hn.
  assert (Hall : forallb (fun k => Nat.eqb (String.length
                                             (pad_left 2 (Z.of_nat k))) 2)
                         (seq 0 100) = true) by (vm_compute; reflexivity).
  rewrite forallb_forall in Hall.
  specialize (Hall (Z.to_nat n)).
  rewrite Z2Nat.id in Hall by lia.
  apply Nat.eqb_eq, Hall, in_seq. lia.
Qed.

Lemma append_assoc (a b c : string) : (a ++ b) ++ c = a ++ (b ++ c).
Proof. induction a as [ | ch a IH]; simpl; [ | rewrite IH]; reflexivity. Qed.

(** A finite float is rendered with a point and exactly two digits
    after it. *)
Lemma format_fixed_two_decimals (comma : bool) (x : float) :
  match Prim2SF x with
  | S754_zero _ | S754_finite _ _ _ => True
  | _ => False
  end ->
  exists front frac,
    format_fixed comma 2 x = front ++ "." ++ frac /\
    String.length frac = 2%nat.
Proof.
  unfold format_fixed.
  destruct (Prim2SF x) as [s | s | | s m e]; try contradiction; intros _.
  - eexists (_ ++ _), _. rewrite append_assoc.
    split; [reflexivity | ].
    apply pad_left_two. apply Z.mod_pos_bound. reflexivity.
  - eexists (_ ++ _), _. rewrite append_assoc.
    split; [reflexivity | ].
    apply pad_left_two. apply Z.mod_pos_bound. reflexivity.
Qed.

(** ** The market data client *)

Lemma get_coins_list_outcome upstream :
  outcome (get_coins_list upstream) =
  Ok (or_else (response <- upstream markets_request ;;
               if status_code response =? 200 then body response
               else Ok (JArr []))%result
              (JArr [])).
Proof.
  unfold get_coins_list. cbv zeta. autorewrite with run.
  fold markets_request.
  destruct (upstream markets_request) as [r | e]; simpl; [ | reflexivity].
  destruct (status_code r =? 200); autorewrite with run; simpl.
  - destruct (body r); reflexivity.
  - reflexivity.
Qed.

Lemma get_coins_list_trace upstream :
  trace (get_coins_list upstream)
  = Http markets_request :: coins_list_notes (upstream markets_request).
Proof.
  unfold get_coins_list. cbv zeta. autorewrite with run.
  fold markets_request. simpl.
  destruct (upstream markets_request) as [r | e]; simpl; [ | reflexivity].
  destruct (status_code r =? 200); autorewrite with run; simpl.
  - destruct (body r); reflexivity.
  - reflexivity.
Qed.

Lemma get_global_data_outcome upstream :
  outcome (get_global_data upstream) =
  Ok (or_else (response <- upstream global_request ;;
               if status_code response =? 200 then
                 data <- body response ;; subscript data "data"
               else Ok JNull)%result
              JNull).
Proof.
  unfold get_global_data. autorewrite with run. fold global_request.
  destruct (upstream global_request) as [r | e]; simpl; [ | reflexivity].
  destruct (status_code r =? 200); autorewrite with run; simpl.
  - destruct (body r) as [data | e]; simpl; [ | reflexivity].
    destruct (subscript data "data"); reflexivity.
  - reflexivity.
Qed.

Lemma get_global_data_trace upstream :
  trace (get_global_data upstream) = [Http global_request].
Proof.
  unfold get_global_data. autorewrite with run. fold global_request.
  destruct (upstream global_request) as [r | e]; simpl; [ | reflexivity].
  destruct (status_code r =? 200); autorewrite with run; simpl.
  - destruct (body r) as [data | e]; simpl; [ | reflexivity].
    destruct (subscript data "data"); reflexivity.
  - reflexivity.
Qed.

Lemma get_coin_history_outcome rt upstream coin_id days :
  outcome (get_coin_history rt upstream coin_id days) =
  Ok (or_else (response <- upstream (history_request rt coin_id days) ;;
               data <- body response ;;
               parse_history rt data)%result
              sentinel).
Proof.
  unfold get_coin_history. cbv zeta. autorewrite with run.
  fold (history_request rt coin_id days).
  destruct (upstream (history_request rt coin_id days)) as [r | e];
    simpl; [ | reflexivity].
  autorewrite with run.
  destruct (body r) as [data | e]; simpl; [ | reflexivity].
  unfold parse_history.
  repeat (autorewrite with run;
          match goal with
          | |- context [rbind ?r _] => destruct r; simpl; try reflexivity
          end).
Qed.

Lemma get_coin_history_trace rt upstream coin_id days :
  trace (get_coin_history rt upstream coin_id days) =
  [Http (history_request rt coin_id days)].
Proof.
  unfold get_coin_history. cbv zeta. autorewrite with run.
  fold (history_request rt coin_id days).
  destruct (upstream (history_request rt coin_id days)) as [r | e];
    simpl; [ | reflexivity].
  autorewrite with run.
  destruct (body r) as [data | e]; simpl; [ | reflexivity].
  repeat (autorewrite with run;
          match goal with
          | |- context [match ?r with Ok _ => _ | Raise _ => _ end] =>
              destruct r; simpl; try reflexivity
          end).
Qed.

(** C4: on a transport failure or a status other than 200 (so on every
    non-success status) [get_coins_list] returns the empty list, and it
    never raises. *)
Theorem get_coins_list_failure_empty (upstream : request -> result response) :
  (forall e : exn,
     upstream markets_request = Raise e ->
     outcome (get_coins_list upstream) = Ok (JArr [])) /\
  (forall r : response,
     upstream markets_request = Ok r -> status_code r <> 200 ->
     outcome (get_coins_list upstream) = Ok (JArr [])) /\
  (exists coins_data : json, outcome (get_coins_list upstream) = Ok coins_data).
Proof.
  rewrite get_coins_list_outcome. repeat split.
  - intros e He. now rewrite He.
  - intros r Hr Hs. rewrite Hr. simpl.
    destruct (Z.eqb_spec (status_code r) 200); [contradiction | reflexivity].
  - eexists. reflexivity.
Qed.

Lemma get_coins_list_failure_empty_witness :
  outcome (get_coins_list (fun _ => Raise RequestException)) = Ok (JArr []) /\
  outcome (get_coins_list
             (fun _ => Ok {| status_code := 503; body := Ok (JArr [bitcoin]) |}))
  = Ok (JArr []).
Proof.
  split.
  - apply (proj1 (get_coins_list_failure_empty _) RequestException).
    reflexivity.
  - apply (proj1 (proj2 (get_coins_list_failure_empty _))
             {| status_code := 503; body := Ok (JArr [bitcoin]) |}).
    + reflexivity.
    + simpl. lia.
Defined.

(** C5: [get_global_data] returns [None] on a transport failure, on a
    status other than 200 and on a body that is not JSON or has no
    ['data'] key; on success it returns the stats object; it never
    raises. *)
Theorem get_global_data_spec (upstream : request -> result response) :
  (forall e : exn,
     upstream global_request = Raise e ->
     outcome (get_global_data upstream) = Ok JNull) /\
  (forall r : response,
     upstream global_request = Ok r -> status_code r <> 200 ->
     outcome (get_global_data upstream) = Ok JNull) /\
  (forall (r : response) (e : exn),
     upstream global_request = Ok r -> body r = Raise e ->
     outcome (get_global_data upstream) = Ok JNull) /\
  (forall (r : response) (data : json) (e : exn),
     upstream global_request = Ok r -> body r = Ok data ->
     subscript data "data" = Raise e ->
     outcome (get_global_data upstream) = Ok JNull) /\
  (forall (r : response) (data stats : json),
     upstream global_request = Ok r -> status_code r = 200 ->
     body r = Ok data -> subscript data "data" = Ok stats ->
     outcome (get_global_data upstream) = Ok stats) /\
  (exists stats : json, outcome (get_global_data upstream) = Ok stats).
Proof.
  rewrite get_global_data_outcome. repeat split.
  - intros e He. now rewrite He.
  - intros r Hr Hs. rewrite Hr. simpl.
    destruct (Z.eqb_spec (status_code r) 200); [contradiction | reflexivity].
  - intros r e Hr Hb. rewrite Hr. simpl. rewrite Hb.
    destruct (status_code r =? 200); reflexivity.
  - intros r data e Hr Hb Hd. rewrite Hr. simpl. rewrite Hb. simpl. rewrite Hd.
    destruct (status_code r =? 200); reflexivity.
  - intros r data stats Hr Hs Hb Hd. rewrite Hr. simpl.
    rewrite Hs, Hb. simpl. now rewrite Hd.
  - eexists. reflexivity.
Qed.

Lemma get_global_data_spec_witness :
  outcome (get_global_data (fun _ => Raise RequestException)) = Ok JNull /\
  outcome (get_global_data
             (fun _ => Ok {| status_code := 429; body := Ok global_body |}))
  = Ok JNull /\
  outcome (get_global_data
             (fun _ => Ok {| status_code := 200; body := Raise JSONDecodeError |}))
  = Ok JNull /\
  outcome (get_global_data (fun _ => ok200 (JObj [("status", JStr "down")])))
  = Ok JNull /\
  outcome (get_global_data (fun _ => ok200 global_body))
  = subscript global_body "data".
Proof.
  pose proof (get_global_data_spec (fun _ => Raise RequestException))
    as (H1 & _).
  pose proof (get_global_data_spec
                (fun _ => Ok {| status_code := 429; body := Ok global_body |}))
    as (_ & H2 & _).
  pose proof (get_global_data_spec
                (fun _ => Ok {| status_code := 200;
                                body := Raise JSONDecodeError |}))
    as (_ & _ & H3 & _).
  pose proof (get_global_data_spec
                (fun _ => ok200 (JObj [("status", JStr "down")])))
    as (_ & _ & _ & H4 & _).
  pose proof (get_global_data_spec (fun _ => ok200 global_body))
    as (_ & _ & _ & _ & H5 & _).
  split; [ | split; [ | split; [ | split]]].
  - apply (H1 RequestException). reflexivity.
  - apply (H2 {| status_code := 429; body := Ok global_body |}).
    + reflexivity.
    + simpl. lia.
  - apply (H3 {| status_code := 200; body := Raise JSONDecodeError |}
              JSONDecodeError); reflexivity.
  - apply (H4 {| status_code := 200;
                 body := Ok (JObj [("status", JStr "down")]) |}
              (JObj [("status", JStr "down")]) (KeyError "data"));
      reflexivity.
  - apply (H5 {| status_code := 200; body := Ok global_body |} global_body);
      reflexivity.
Defined.

(** *** [get_coin_history] *)



Lemma points_of_length (rows : list json) (f : frame) :
  points_of rows = Some f -> List.length f = List.length rows.
Proof.
  revert f. induction rows as [ | row rows IH]; intros f H.
  - now injection H as <-.
  - simpl in H.
    destruct row as [ | | | | | [ | [ | | ms | | | | ] [ | v [ | ? ?]]] | ];
      try discriminate H.
    destruct (in_ns_range ms); [ | discriminate].
    destruct (points_of rows) as [f' | ]; [ | discriminate].
    injection H as <-. simpl. now rewrite (IH f' eq_refl).
Qed.

(** C1, as stated, fails: the arrays are taken as they come. *)
Lemma get_coin_history_unchecked :
  outcome (get_coin_history rt0 (fun _ => ok200 ragged_history)
                            (JStr "bitcoin") 7)
  = Ok ragged_result /\
  history_contract ragged_result = false.
Proof. split; vm_compute; reflexivity. Qed.

(** C1, amended: [get_coin_history] never raises, and it returns either
    the sentinel or three series, all present; never some present and
    others not. *)
Theorem get_coin_history_all_or_nothing
        (rt : runtime) (upstream : request -> result response)
        (coin_id : json) (days : Z) :
  outcome (get_coin_history rt upstream coin_id days) = Ok sentinel \/
  exists df_prices df_caps df_vol : frame,
    outcome (get_coin_history rt upstream coin_id days)
    = Ok (Some df_prices, Some df_caps, Some df_vol).
Proof.
  rewrite get_coin_history_outcome.
  destruct (upstream (history_request rt coin_id days)) as [r | e];
    simpl; [ | now left].
  destruct (body r) as [data | e]; simpl; [ | now left].
  unfold parse_history.
  repeat match goal with
         | |- context [rbind ?x _] => destruct x; simpl; [ | now left]
         end.
  right. eauto.
Qed.

(** C8: [get_coin_history] does not look at the status code; a body
    whose ['prices'], ['market_caps'] and ['total_volumes'] arrays are
    parsed gives the three series whatever the status, and a body that
    lacks one of the keys gives the sentinel. *)
Theorem get_coin_history_ignores_status
        (rt : runtime) (coin_id : json) (days : Z) :
  (forall (upstream upstream' : request -> result response) (r r' : response),
     upstream (history_request rt coin_id days) = Ok r ->
     upstream' (history_request rt coin_id days) = Ok r' ->
     body r = body r' ->
     get_coin_history rt upstream coin_id days
     = get_coin_history rt upstream' coin_id days) /\
  (forall (upstream : request -> result response) (r : response)
          (data prices_data caps_data vol_data : json)
          (df_prices df_caps df_vol : frame),
     upstream (history_request rt coin_id days) = Ok r ->
     body r = Ok data ->
     subscript data "prices" = Ok prices_data ->
     subscript data "market_caps" = Ok caps_data ->
     subscript data "total_volumes" = Ok vol_data ->
     time_indexed rt prices_data = Ok df_prices ->
     time_indexed rt caps_data = Ok df_caps ->
     time_indexed rt vol_data = Ok df_vol ->
     outcome (get_coin_history rt upstream coin_id days)
     = Ok (Some df_prices, Some df_caps, Some df_vol)) /\
  (forall (upstream : request -> result response) (r : response)
          (data : json) (key : string) (e : exn),
     upstream (history_request rt coin_id days) = Ok r ->
     body r = Ok data ->
     In key ["prices"; "market_caps"; "total_volumes"] ->
     subscript data key = Raise e ->
     outcome (get_coin_history rt upstream coin_id days) = Ok sentinel).
Proof.
  split; [ | split].
  - intros upstream upstream' r r' Hr Hr' Hbody.
    apply M_ext.
    + rewrite !get_coin_history_outcome, Hr, Hr'. simpl. now rewrite Hbody.
    + now rewrite !get_coin_history_trace.
  - intros upstream r data prices_data caps_data vol_data
           df_prices df_caps df_vol Hr Hbody Hp Hc Hv Hfp Hfc Hfv.
    rewrite get_coin_history_outcome, Hr. simpl. rewrite Hbody. simpl.
    unfold parse_history.
    rewrite Hp. simpl. rewrite Hfp. simpl.
    rewrite Hc. simpl. rewrite Hfc. simpl.
    rewrite Hv. simpl. now rewrite Hfv.
  - intros upstream r data key e Hr Hbody Hkey Hmissing.
    rewrite get_coin_history_outcome, Hr. simpl. rewrite Hbody. simpl.
    unfold parse_history.
    destruct Hkey as [<- | [<- | [<- | []]]].
    + now rewrite Hmissing.
    + destruct (subscript data "prices"); simpl; [ | reflexivity].
      destruct (time_indexed rt _); simpl; [ | reflexivity].
      now rewrite Hmissing.
    + destruct (subscript data "prices"); simpl; [ | reflexivity].
      destruct (time_indexed rt _); simpl; [ | reflexivity].
      destruct (subscript data "market_caps"); simpl; [ | reflexivity].
      destruct (time_indexed rt _); simpl; [ | reflexivity].
      now rewrite Hmissing.
Qed.

Lemma get_coin_history_ignores_status_witness :
  get_coin_history rt0
    (fun _ => Ok {| status_code := 200; body := Ok history_body |})
    (JStr "bitcoin") 30
  = get_coin_history rt0
      (fun _ => Ok {| status_code := 500; body := Ok history_body |})
      (JStr "bitcoin") 30 /\
  outcome (get_coin_history rt0
             (fun _ => Ok {| status_code := 500; body := Ok history_body |})
             (JStr "bitcoin") 30)
  = Ok history_frames /\
  outcome (get_coin_history rt0
             (fun _ => ok200 (JObj [("prices", JArr [point 1000 10])]))
             (JStr "bitcoin") 30)
  = Ok sentinel.
Proof.
  pose proof (get_coin_history_ignores_status rt0 (JStr "bitcoin") 30)
    as (H1 & H2 & H3).
  split; [ | split].
  - apply (H1 _ _ {| status_code := 200; body := Ok history_body |}
              {| status_code := 500; body := Ok history_body |});
      reflexivity.
  - apply (H2 _ {| status_code := 500; body := Ok history_body |}
              history_body
              (JArr [point 1000 10; point 2000 20])
              (JArr [point 1000 5; point 2000 6])
              (JArr [point 1000 1; point 2000 2]));
      vm_compute; reflexivity.
  - apply (H3 _ {| status_code := 200;
                   body := Ok (JObj [("prices", JArr [point 1000 10])]) |}
              (JObj [("prices", JArr [point 1000 10])])
              "market_caps" (KeyError "market_caps")).
    + reflexivity.
    + reflexivity.
    + simpl. auto.
    + reflexivity.
Defined.

(** ** The view controller *)

(** A pass that gets an empty list stops at the notice. *)
Lemma main_empty rt upstream selection days_option coins_data :
  outcome (get_coins_list upstream) = Ok coins_data ->
  py_len coins_data = Ok 0 ->
  main rt upstream selection days_option
  = (Ok tt, (header ++ trace (get_coins_list upstream) ++ could_not_load)%list).
Proof.
  intros Hcoins Hlen. apply M_eq; unfold main; run.
  - rewrite Hcoins. run. rewrite Hlen. reflexivity.
  - rewrite Hcoins. run. rewrite Hlen. run. reflexivity.
Qed.

(** A pass that gets coins reaches the view selected. *)
Lemma main_view rt upstream selection days_option coins_data n coins names :
  outcome (get_coins_list upstream) = Ok coins_data ->
  py_len coins_data = Ok n -> n <> 0 ->
  py_iter coins_data = Ok coins ->
  collect_names coins = Ok names ->
  let view :=
    if py_eq selection GLOBAL_OVERVIEW
    then global_view rt upstream coins_data
    else detail_view rt upstream coins_data selection (days_int_of days_option)
  in
  main rt upstream selection days_option
  = (outcome view,
     (header ++ trace (get_coins_list upstream) ++ sidebar names ++ trace view)%list).
Proof.
  intros Hcoins Hlen Hn Hiter Hnames view.
  apply Z.eqb_neq in Hn.
  apply M_eq; unfold main; run.
  - rewrite Hcoins. run. rewrite Hlen. run. rewrite Hn. run.
    rewrite Hiter. run. rewrite Hnames. run. reflexivity.
  - rewrite Hcoins. run. rewrite Hlen. run. rewrite Hn. run.
    rewrite Hiter. run. rewrite Hnames. run. reflexivity.
Qed.

(** *** The coin lookup *)

Lemma subscript_truthy (v : json) (key : string) (x : json) :
  subscript v key = Ok x -> py_truthy v = true.
Proof.
  destruct v as [ | | | | | | members]; try discriminate.
  destruct members; [discriminate | reflexivity].
Qed.

Lemma collect_names_app (before after : list json) (names : list json) :
  collect_names (before ++ after) = Ok names ->
  exists names1 names2,
    collect_names before = Ok names1 /\ collect_names after = Ok names2 /\
    names = (names1 ++ names2)%list.
Proof.
  revert names. induction before as [ | coin before IH]; intros names H.
  - exists [], names. auto.
  - cbn [collect_names app] in *.
    destruct (subscript coin "name") as [name | ]; [ | discriminate].
    cbn [rbind] in *.
    destruct (collect_names (before ++ after)) as [rest | ] eqn:Hrest;
      [ | discriminate].
    injection H as <-.
    destruct (IH rest eq_refl) as (n1 & n2 & -> & H2 & ->).
    exists (name :: n1), n2. auto.
Qed.

(** The scan stops at the first coin whose name equals the selection. *)
Lemma find_coin_first (before after : list json) (coin name selection : json)
      (names : list json) :
  collect_names before = Ok names ->
  (forall c n, In c before -> subscript c "name" = Ok n ->
               py_eq n selection = false) ->
  subscript coin "name" = Ok name ->
  py_eq name selection = true ->
  find_coin (before ++ coin :: after) selection = Ok coin.
Proof.
  revert names.
  induction before as [ | c before IH]; intros names Hnames Hno Hname Heq.
  - cbn [app find_coin]. rewrite Hname. cbn [rbind]. now rewrite Heq.
  - cbn [collect_names] in Hnames. cbn [app find_coin].
    destruct (subscript c "name") as [n | ] eqn:Hn; [ | discriminate].
    cbn [rbind] in *.
    destruct (collect_names before) as [rest | ]; [ | discriminate].
    rewrite (Hno c n (or_introl eq_refl) Hn).
    apply (IH rest eq_refl); auto.
    intros c' n' Hin. apply Hno. now right.
Qed.

(** Without a match the scan ends with [None]. *)
Lemma find_coin_none (coins names : list json) (selection : json) :
  collect_names coins = Ok names ->
  (forall n, In n names -> py_eq n selection = false) ->
  find_coin coins selection = Ok JNull.
Proof.
  revert names. induction coins as [ | c coins IH]; intros names Hnames Hno.
  - reflexivity.
  - cbn [collect_names] in Hnames. cbn [find_coin].
    destruct (subscript c "name") as [n | ]; [ | discriminate].
    cbn [rbind] in *.
    destruct (collect_names coins) as [rest | ]; [ | discriminate].
    injection Hnames as <-.
    rewrite (Hno n (or_introl eq_refl)).
    apply (IH rest eq_refl).
    intros n' Hin. apply Hno. now right.
Qed.

Lemma py_eq_str (a b : string) : py_eq (JStr a) (JStr b) = true <-> a = b.
Proof. apply String.eqb_eq. Qed.

Lemma detail_view_found rt upstream coins selection coin days_int :
  find_coin coins selection = Ok coin ->
  py_truthy coin = true ->
  detail_view rt upstream (JArr coins) selection days_int
  = show_coin rt upstream coin days_int.
Proof.
  intros Hfind Htruthy.
  apply M_ext; unfold detail_view; run; cbn [py_iter]; run;
    rewrite Hfind; run; now rewrite Htruthy.
Qed.

Lemma detail_view_missing rt upstream coins selection days_int :
  find_coin coins selection = Ok JNull ->
  detail_view rt upstream (JArr coins) selection days_int = (Ok tt, []).
Proof.
  intros Hfind.
  apply M_eq; unfold detail_view; run; cbn [py_iter]; run;
    rewrite Hfind; run; reflexivity.
Qed.

(** *** Showing a coin *)

Lemma show_coin_run rt upstream coin days_int
      name symbol image price change high coin_id frames :
  subscript coin "name" = Ok name ->
  subscript coin "symbol" = Ok (JStr symbol) ->
  subscript coin "image" = Ok image ->
  subscript coin "current_price" = Ok price ->
  subscript coin "price_change_percentage_24h" = Ok change ->
  subscript coin "high_24h" = Ok high ->
  subscript coin "id" = Ok coin_id ->
  outcome (get_coin_history rt upstream coin_id days_int) = Ok frames ->
  show_coin rt upstream coin days_int
  = (Ok tt,
     (coin_widgets rt name symbol image price change high days_int ++
      Http (history_request rt coin_id days_int) :: charts frames)%list).
Proof.
  intros Hname Hsymbol Himage Hprice Hchange Hhigh Hid Hframes.
  assert (Hshape : frames = sentinel \/
                   exists p c v, frames = (Some p, Some c, Some v)).
  { destruct (get_coin_history_all_or_nothing rt upstream coin_id days_int)
      as [H | (p & c & v & H)]; rewrite Hframes in H; injection H as ->; eauto. }
  apply M_eq; unfold show_coin; run.
  - rewrite Hname. run. rewrite Hsymbol. run. cbn [upper]. run.
    rewrite Himage. run. rewrite Hprice. run. rewrite Hchange. run.
    rewrite Hhigh. run. rewrite Hid. run. rewrite Hframes. run.
    destruct Hshape as [-> | (p & c & v & ->)]; cbn; reflexivity.
  - rewrite Hname. run. rewrite Hsymbol. run. cbn [upper]. run.
    rewrite Himage. run. rewrite Hprice. run. rewrite Hchange. run.
    rewrite Hhigh. run. rewrite Hid. run.
    rewrite get_coin_history_trace. rewrite Hframes.
    destruct Hshape as [-> | (p & c & v & ->)]; cbn; reflexivity.
Qed.

Lemma length_middle {A : Type} (before after : list A) (x : A) :
  Z.of_nat (List.length (before ++ x :: after)) <> 0.
Proof. rewrite length_app. simpl. lia. Qed.

(** With a coin name selected, the pass shows the first coin that has
    the name. *)
Lemma main_shows_first rt upstream selection days_option
      before after coin name names :
  py_eq selection GLOBAL_OVERVIEW = false ->
  outcome (get_coins_list upstream) = Ok (JArr (before ++ coin :: after)) ->
  collect_names (before ++ coin :: after) = Ok names ->
  (forall c n, In c before -> subscript c "name" = Ok n ->
               py_eq n selection = false) ->
  subscript coin "name" = Ok name ->
  py_eq name selection = true ->
  let shown := show_coin rt upstream coin (days_int_of days_option) in
  main rt upstream selection days_option
  = (outcome shown,
     (header ++ trace (get_coins_list upstream) ++ sidebar names ++
      trace shown)%list).
Proof.
  intros Hsel Hcoins Hnames Hno Hname Heq shown.
  destruct (collect_names_app _ _ _ Hnames) as (n1 & n2 & Hn1 & _ & _).
  rewrite (main_view rt upstream selection days_option _ _ _ names
             Hcoins eq_refl (length_middle before after coin) eq_refl Hnames).
  rewrite Hsel.
  rewrite (detail_view_found rt upstream _ selection coin _
             (find_coin_first before after coin name selection n1
                              Hn1 Hno Hname Heq)
             (subscript_truthy _ _ _ Hname)).
  reflexivity.
Qed.

(** C10: the detail view shows the first coin, in fetched order, whose
    name equals the selection, whatever follows it; names are compared
    exactly; and when no coin has the name nothing is shown beyond the
    sidebar. *)
Theorem coin_lookup_first_match
        (rt : runtime) (upstream : request -> result response)
        (selection : json) (days_option : string) :
  py_eq selection GLOBAL_OVERVIEW = false ->
  (forall (before after : list json) (coin name : json) (names : list json),
     outcome (get_coins_list upstream) = Ok (JArr (before ++ coin :: after)) ->
     collect_names (before ++ coin :: after) = Ok names ->
     (forall c n, In c before -> subscript c "name" = Ok n ->
                  py_eq n selection = false) ->
     subscript coin "name" = Ok name ->
     py_eq name selection = true ->
     let shown := show_coin rt upstream coin (days_int_of days_option) in
     main rt upstream selection days_option
     = (outcome shown,
        (header ++ trace (get_coins_list upstream) ++ sidebar names ++
         trace shown)%list)) /\
  (forall coins names : list json,
     outcome (get_coins_list upstream) = Ok (JArr coins) ->
     coins <> [] ->
     collect_names coins = Ok names ->
     (forall n, In n names -> py_eq n selection = false) ->
     main rt upstream selection days_option
     = (Ok tt,
        (header ++ trace (get_coins_list upstream) ++ sidebar names)%list)) /\
  (forall a b : string, py_eq (JStr a) (JStr b) = true <-> a = b).
Proof.
  intros Hsel. split; [ | split].
  - intros before after coin name names Hcoins Hnames Hno Hname Heq.
    now apply main_shows_first with (before := before) (after := after)
                                    (name := name).
  - intros coins names Hcoins Hne Hnames Hno.
    assert (Hlen : Z.of_nat (List.length coins) <> 0)
      by (destruct coins; [contradiction | simpl; lia]).
    rewrite (main_view rt upstream selection days_option _ _ _ names
               Hcoins eq_refl Hlen eq_refl Hnames).
    rewrite Hsel.
    rewrite (detail_view_missing rt upstream _ selection _
               (find_coin_none coins names selection Hnames Hno)).
    cbn [outcome trace fst snd]. now rewrite app_nil_r.
  - apply py_eq_str.
Qed.

Lemma coin_lookup_first_match_witness :
  main rt0 three_coins (JStr "Bitcoin") "7 Days"
  = (outcome (show_coin rt0 three_coins bitcoin 7),
     (header ++ trace (get_coins_list three_coins) ++
      sidebar [JStr "Ethereum"; JStr "Bitcoin"; JStr "Bitcoin"] ++
      trace (show_coin rt0 three_coins bitcoin 7))%list) /\
  main rt0 three_coins (JStr "Dogecoin") "7 Days"
  = (Ok tt,
     (header ++ trace (get_coins_list three_coins) ++
      sidebar [JStr "Ethereum"; JStr "Bitcoin"; JStr "Bitcoin"])%list).
Proof.
  split.
  - apply (proj1 (coin_lookup_first_match rt0 three_coins (JStr "Bitcoin")
                    "7 Days" eq_refl)
             [ethereum] [bitcoin_twin] bitcoin (JStr "Bitcoin")).
    + reflexivity.
    + reflexivity.
    + intros c n [<- | []] Hn. injection Hn as <-. reflexivity.
    + reflexivity.
    + reflexivity.
  - apply (proj1 (proj2 (coin_lookup_first_match rt0 three_coins
                           (JStr "Dogecoin") "7 Days" eq_refl))
             [ethereum; bitcoin; bitcoin_twin]).
    + reflexivity.
    + discriminate.
    + reflexivity.
    + intros n [<- | [<- | [<- | []]]]; reflexivity.
Defined.

(** *** Properties of every event of a pass *)

Section Events.

Variable P : event -> Prop.

Lemma all_bind {A B : Type} (m : M A) (k : A -> M B) :
  Forall P (trace m) -> (forall a, Forall P (trace (k a))) ->
  Forall P (trace (bind m k)).
Proof.
  intros Hm Hk. rewrite trace_bind. apply Forall_app. split; [exact Hm | ].
  destruct (outcome m); [apply Hk | constructor].
Qed.

Lemma all_lift {A : Type} (r : result A) : Forall P (trace (lift r)).
Proof. constructor. Qed.

Lemma all_ret {A : Type} (a : A) : Forall P (trace (ret a)).
Proof. constructor. Qed.

Lemma all_emit (e : event) : P e -> Forall P (trace (emit e)).
Proof. intros H. repeat constructor. exact H. Qed.

Lemma all_get_coins_list upstream :
  P (Http markets_request) ->
  P (Print "Error loading coins") ->
  (forall e, P (Show (st_error "Error connecting to API: " e))) ->
  Forall P (trace (get_coins_list upstream)).
Proof.
  intros Hreq Hprint Herror. rewrite get_coins_list_trace.
  constructor; [exact Hreq | ]. unfold coins_list_notes.
  destruct (upstream markets_request) as [r | e]; [ | repeat constructor; auto].
  destruct (status_code r =? 200); [ | repeat constructor; auto].
  destruct (body r); repeat constructor; auto.
Qed.

Lemma all_get_global_data upstream :
  P (Http global_request) -> Forall P (trace (get_global_data upstream)).
Proof. intros H. rewrite get_global_data_trace. repeat constructor. exact H. Qed.

Lemma all_get_coin_history rt upstream coin_id days :
  P (Http (history_request rt coin_id days)) ->
  Forall P (trace (get_coin_history rt upstream coin_id days)).
Proof. intros H. rewrite get_coin_history_trace. repeat constructor. exact H. Qed.

End Events.

Ltac all_events :=
  repeat first
    [ apply all_lift
    | apply all_ret
    | apply all_emit
    | apply all_get_coins_list
    | apply all_get_global_data
    | apply all_get_coin_history
    | apply all_bind; [ | intros ]
    | match goal with
      | |- Forall _ (trace (if ?c then _ else _)) => destruct c
      | |- Forall _ (trace (match ?x with (_, _) => _ end)) => destruct x
      | |- Forall _ (trace (match ?x with Some _ => _ | None => _ end)) =>
          destruct x
      end ].

(** The history URL of any coin differs from the global one. *)
Lemma history_request_not_global rt coin_id days :
  Http (history_request rt coin_id days) <> Http global_request.
Proof. unfold history_request, global_request. cbn. congruence. Qed.

Lemma fetched_outcome rt upstream coin_id days :
  outcome (get_coin_history rt upstream coin_id days)
  = Ok (fetched rt upstream coin_id days).
Proof. unfold fetched. now rewrite get_coin_history_outcome. Qed.

(** C7, as stated, fails: the coin is found and the window is
    "30 Days", the history is requested, and no series is drawn. *)
Lemma coin_selected_no_series :
  main rt0 history_down (JStr "Bitcoin") "30 Days"
  = (Ok tt,
     (header ++ [Http markets_request] ++ sidebar [JStr "Bitcoin"] ++
      coin_widgets rt0 (JStr "Bitcoin") "btc" (JStr "bitcoin.png")
                   (JInt 50000) (JFloat (-2.5)%float) (JInt 51000) 30 ++
      [Http (history_request rt0 (JStr "bitcoin") 30)] ++
      chart_unavailable)%list) /\
  existsb is_chart
          (trace (main rt0 history_down (JStr "Bitcoin") "30 Days")) = false.
Proof. split; vm_compute; reflexivity. Qed.

(** C7, amended: with a coin name selected, [get_global_data] is never
    called; when the selected coin is found, has the fields the detail
    view reads, and the window is "30 Days", the pass requests the
    history of exactly that coin's id for 30 days, then draws the price,
    volume and market-cap series if they came back and the notice if
    they did not. *)
Theorem coin_selected_history
        (rt : runtime) (upstream : request -> result response)
        (selection : json) (days_option : string) :
  py_eq selection GLOBAL_OVERVIEW = false ->
  Forall (fun e => e <> Http global_request)
         (trace (main rt upstream selection days_option)) /\
  (forall (before after : list json) (coin : json) (names : list json)
          (name : json) (symbol : string)
          (image price change high coin_id : json),
     outcome (get_coins_list upstream) = Ok (JArr (before ++ coin :: after)) ->
     collect_names (before ++ coin :: after) = Ok names ->
     (forall c n, In c before -> subscript c "name" = Ok n ->
                  py_eq n selection = false) ->
     subscript coin "name" = Ok name ->
     py_eq name selection = true ->
     subscript coin "symbol" = Ok (JStr symbol) ->
     subscript coin "image" = Ok image ->
     subscript coin "current_price" = Ok price ->
     subscript coin "price_change_percentage_24h" = Ok change ->
     subscript coin "high_24h" = Ok high ->
     subscript coin "id" = Ok coin_id ->
     days_option = "30 Days" ->
     main rt upstream selection days_option
     = (Ok tt,
        (header ++ trace (get_coins_list upstream) ++ sidebar names ++
         coin_widgets rt name symbol image price change high 30 ++
         Http (history_request rt coin_id 30) ::
         charts (fetched rt upstream coin_id 30))%list)).
Proof.
  intros Hsel. split.
  - unfold main. rewrite Hsel.
    all_events; try discriminate; apply history_request_not_global.
  - intros before after coin names name symbol image price change high coin_id
           Hcoins Hnames Hno Hname Heq Hsymbol Himage Hprice Hchange Hhigh Hid
           ->.
    rewrite (main_shows_first rt upstream selection "30 Days" before after
               coin name names Hsel Hcoins Hnames Hno Hname Heq).
    change (days_int_of "30 Days") with 30.
    rewrite (show_coin_run rt upstream coin 30 name symbol image price change
               high coin_id _ Hname Hsymbol Himage Hprice Hchange Hhigh Hid
               (fetched_outcome rt upstream coin_id 30)).
    reflexivity.
Qed.

Lemma coin_selected_history_witness :
  Forall (fun e => e <> Http global_request)
         (trace (main rt0 three_coins (JStr "Bitcoin") "30 Days")) /\
  main rt0 three_coins (JStr "Bitcoin") "30 Days"
  = (Ok tt,
     (header ++ trace (get_coins_list three_coins) ++
      sidebar [JStr "Ethereum"; JStr "Bitcoin"; JStr "Bitcoin"] ++
      coin_widgets rt0 (JStr "Bitcoin") "btc" (JStr "bitcoin.png")
                   (JInt 50000) (JFloat (-2.5)%float) (JInt 51000) 30 ++
      Http (history_request rt0 (JStr "bitcoin") 30) ::
      charts (fetched rt0 three_coins (JStr "bitcoin") 30))%list).
Proof.
  pose proof (coin_selected_history rt0 three_coins (JStr "Bitcoin") "30 Days"
                eq_refl) as (Hnever & Hfound).
  split; [exact Hnever | ].
  apply (Hfound [ethereum] [bitcoin_twin] bitcoin); try reflexivity.
  intros c n [<- | []] Hn. injection Hn as <-. reflexivity.
Defined.

(** *** The global branch *)

Lemma global_view_trace_head rt upstream coins_data :
  exists rest,
    trace (global_view rt upstream coins_data)
    = Show (st_title "Global Crypto Market") :: Http global_request :: rest.
Proof.
  unfold global_view. rewrite trace_bind, trace_emit, outcome_emit.
  rewrite trace_bind, get_global_data_trace. cbn [app]. eauto.
Qed.

(** C9: with "Global Overview" selected the pass takes the global
    branch, for every coin list fetched, also one that holds a coin of
    that name; no event of the detail view ever occurs. *)
Theorem global_overview_selected
        (rt : runtime) (upstream : request -> result response)
        (days_option : string) :
  Forall global_pass_event
         (trace (main rt upstream GLOBAL_OVERVIEW days_option)) /\
  (forall coins names : list json,
     outcome (get_coins_list upstream) = Ok (JArr coins) ->
     coins <> [] ->
     collect_names coins = Ok names ->
     let view := global_view rt upstream (JArr coins) in
     main rt upstream GLOBAL_OVERVIEW days_option
     = (outcome view,
        (header ++ trace (get_coins_list upstream) ++ sidebar names ++
         trace view)%list) /\
     exists rest,
       trace view
       = Show (st_title "Global Crypto Market") :: Http global_request :: rest).
Proof.
  split.
  - unfold main.
    change (py_eq GLOBAL_OVERVIEW GLOBAL_OVERVIEW) with true.
    all_events; cbn; auto.
  - intros coins names Hcoins Hne Hnames view. split.
    + assert (Hlen : Z.of_nat (List.length coins) <> 0)
        by (destruct coins; [contradiction | simpl; lia]).
      now rewrite (main_view rt upstream GLOBAL_OVERVIEW days_option _ _ _
                     names Hcoins eq_refl Hlen eq_refl Hnames).
    + apply global_view_trace_head.
Qed.

Lemma global_overview_selected_witness :
  let view := global_view rt0 with_impostor (JArr [bitcoin; impostor]) in
  main rt0 with_impostor (JStr "Global Overview") "7 Days"
  = (outcome view,
     (header ++ trace (get_coins_list with_impostor) ++
      sidebar [JStr "Bitcoin"; JStr "Global Overview"] ++ trace view)%list).
Proof.
  intros view.
  apply (proj2 (global_overview_selected rt0 with_impostor "7 Days")
           [bitcoin; impostor] [JStr "Bitcoin"; JStr "Global Overview"]).
  - reflexivity.
  - discriminate.
  - reflexivity.
Defined.

(** *** Well-formed upstream data *)

Lemma is_ok_inv {A : Type} (r : result A) :
  is_ok r = true -> exists a, r = Ok a.
Proof. destruct r; [eauto | discriminate]. Qed.

Lemma format_big_number_total rt (v : json) :
  v = JNull \/ numeric v = true -> exists s, format_big_number rt v = Ok s.
Proof.
  intros [-> | Hnum]; [eexists; reflexivity | ].
  assert (Hfloat : exists f, py_float rt v = Ok f).
  { destruct v as [ | b | z | f | | | ]; try discriminate Hnum;
      cbn [py_float]; eauto.
    now apply is_ok_inv. }
  destruct Hfloat as (f & Hf).
  assert (Hrun : format_big_number rt v =
                 (value <- py_float rt v ;;
                  if PrimFloat.leb 1000000000%float value then
                    Ok ("€ " ++ format_fixed false 2
                                  (value / 1000000000)%float ++ " Mrd.")
                  else if PrimFloat.leb 1000000%float value then
                    Ok ("€ " ++ format_fixed false 2
                                  (value / 1000000)%float ++ " Mio.")
                  else Ok ("€ " ++ format_fixed true 2 value))%result)
    by (destruct v; try discriminate Hnum; reflexivity).
  rewrite Hrun, Hf. cbn [rbind].
  destruct (PrimFloat.leb 1000000000%float f); [eauto | ].
  destruct (PrimFloat.leb 1000000%float f); eauto.
Qed.

Lemma format_1f_total (v : json) :
  numeric v = true -> exists s, format_1f v = Ok s.
Proof.
  destruct v as [ | b | z | f | | | ]; try discriminate; cbn [format_1f numeric];
    eauto.
  intros H. destruct (is_ok_inv _ H) as (f & ->). cbn [rbind]. eauto.
Qed.

Lemma well_formed_coin_field (coin : json) (key : string) :
  well_formed_coin coin = true -> In key COIN_FIELDS ->
  exists x, subscript coin key = Ok x.
Proof.
  intros Hwf Hin. apply andb_true_iff in Hwf. destruct Hwf as [Hall _].
  apply is_ok_inv. revert key Hin. now apply forallb_forall.
Qed.

Lemma well_formed_coin_symbol (coin : json) :
  well_formed_coin coin = true ->
  exists symbol, subscript coin "symbol" = Ok (JStr symbol).
Proof.
  intros Hwf. apply andb_true_iff in Hwf. destruct Hwf as [_ Hsym].
  destruct (subscript coin "symbol") as [[ | | | | s | | ] | ];
    try discriminate.
  eauto.
Qed.

Lemma well_formed_coin_members (coin : json) :
  well_formed_coin coin = true -> exists members, coin = JObj members.
Proof.
  intros Hwf.
  destruct (well_formed_coin_field coin "name" Hwf) as (x & Hx);
    [simpl; auto | ].
  destruct coin; try discriminate. eauto.
Qed.

Lemma collect_names_total (coins : list json) :
  forallb well_formed_coin coins = true ->
  exists names, collect_names coins = Ok names.
Proof.
  induction coins as [ | coin coins IH]; intros Hwf.
  - exists []. reflexivity.
  - cbn [forallb] in Hwf. apply andb_true_iff in Hwf. destruct Hwf as [Hc Hrest].
    destruct (well_formed_coin_field coin "name" Hc) as (name & Hname);
      [simpl; auto | ].
    destruct (IH Hrest) as (names & Hnames).
    exists (name :: names). cbn [collect_names].
    rewrite Hname. cbn [rbind]. now rewrite Hnames.
Qed.

(** The scan returns [None] or one of the coins. *)
Lemma find_coin_total (coins names : list json) (selection : json) :
  collect_names coins = Ok names ->
  exists found, find_coin coins selection = Ok found /\
                (found = JNull \/ In found coins).
Proof.
  revert names. induction coins as [ | c coins IH]; intros names Hnames.
  - exists JNull. auto.
  - cbn [collect_names] in Hnames. cbn [find_coin].
    destruct (subscript c "name") as [n | ]; [ | discriminate].
    cbn [rbind] in *.
    destruct (collect_names coins) as [rest | ]; [ | discriminate].
    destruct (py_eq n selection).
    + exists c. split; [reflexivity | right; now left].
    + destruct (IH rest eq_refl) as (found & Hfound & Hwhere).
      exists found. split; [exact Hfound | ].
      destruct Hwhere; [now left | right; now right].
Qed.

(** *** The ranking table *)

Lemma has_column_app (cols more : list string) (c : string) :
  has_column (cols ++ more) c = has_column cols c || has_column more c.
Proof. apply existsb_app. Qed.

Lemma add_key_keeps (cols : list string) (k c : string) :
  has_column cols c = true -> has_column (add_key cols k) c = true.
Proof.
  intros H. unfold add_key. destruct (existsb (String.eqb k) cols); [exact H | ].
  rewrite has_column_app, H. reflexivity.
Qed.

Lemma add_key_adds (cols : list string) (k : string) :
  has_column (add_key cols k) k = true.
Proof.
  unfold add_key. destruct (existsb (String.eqb k) cols) eqn:H; [exact H | ].
  rewrite has_column_app. cbn. rewrite String.eqb_refl.
  now rewrite orb_true_r.
Qed.

Lemma add_keys_keep (keys cols : list string) (c : string) :
  has_column cols c = true ->
  has_column (fold_left add_key keys cols) c = true.
Proof.
  revert cols. induction keys as [ | k keys IH]; intros cols H; [exact H | ].
  cbn [fold_left]. apply IH. now apply add_key_keeps.
Qed.

Lemma add_keys_add (keys cols : list string) (c : string) :
  In c keys -> has_column (fold_left add_key keys cols) c = true.
Proof.
  revert cols. induction keys as [ | k keys IH]; intros cols Hin.
  - contradiction.
  - cbn [fold_left]. destruct Hin as [-> | Hin].
    + apply add_keys_keep. apply add_key_adds.
    + now apply IH.
Qed.

Lemma record_keys_keep (rows : list (list (string * json)))
      (cols : list string) (c : string) :
  has_column cols c = true ->
  has_column
    (fold_left (fun cols members => fold_left add_key (map fst members) cols)
               rows cols) c = true.
Proof.
  revert cols. induction rows as [ | m rows IH]; intros cols H; [exact H | ].
  cbn [fold_left]. apply IH. now apply add_keys_keep.
Qed.

Lemma record_keys_first (members : list (string * json))
      (rows : list (list (string * json))) (c : string) :
  In c (map fst members) ->
  has_column (record_keys (members :: rows)) c = true.
Proof.
  intros Hin. unfold record_keys. cbn [fold_left].
  apply record_keys_keep. now apply add_keys_add.
Qed.

Lemma assoc_key {A : Type} (k : string) (kvs : list (string * A)) (v : A) :
  assoc k kvs = Some v -> In k (map fst kvs).
Proof.
  induction kvs as [ | [k' v'] kvs IH]; [discriminate | ].
  cbn [assoc map fst]. destruct (String.eqb_spec k k') as [-> | ].
  - intros _. now left.
  - intros H. right. now apply IH.
Qed.

Lemma dict_rows_total (coins : list json) :
  forallb well_formed_coin coins = true ->
  exists rows, dict_rows coins = Some rows /\
               List.length rows = List.length coins.
Proof.
  induction coins as [ | coin coins IH]; intros Hwf.
  - exists []. auto.
  - cbn [forallb] in Hwf. apply andb_true_iff in Hwf. destruct Hwf as [Hc Hrest].
    destruct (well_formed_coin_members coin Hc) as (members & ->).
    destruct (IH Hrest) as (rows & Hrows & Hlen).
    exists (members :: rows). cbn [dict_rows]. rewrite Hrows.
    split; [reflexivity | simpl; now rewrite Hlen].
Qed.

(** For well-formed coins the table and its five columns exist. *)
Lemma ranking_table_total rt (coin : json) (coins : list json) :
  forallb well_formed_coin (coin :: coins) = true ->
  exists df simple_df,
    pd_DataFrame_records rt (JArr (coin :: coins)) = Ok df /\
    select_columns df TABLE_COLUMNS = Ok simple_df.
Proof.
  intros Hwf.
  destruct (dict_rows_total _ Hwf) as (rows & Hrows & _).
  cbn [forallb] in Hwf. apply andb_true_iff in Hwf. destruct Hwf as [Hc _].
  destruct (well_formed_coin_members coin Hc) as (members & ->).
  cbn [dict_rows] in Hrows.
  destruct (dict_rows coins) as [rest | ] eqn:Hrest; [ | discriminate].
  injection Hrows as <-.
  assert (Hcol : forall c, In c COIN_FIELDS ->
                           has_column (record_keys (members :: rest)) c = true).
  { intros c Hin. apply record_keys_first.
    destruct (well_formed_coin_field _ c Hc Hin) as (x & Hx).
    cbn [subscript] in Hx.
    destruct (assoc c members) eqn:Ha; [ | discriminate].
    now apply assoc_key in Ha. }
  unfold pd_DataFrame_records. cbn [dict_rows]. rewrite Hrest. cbn [option_map].
  eexists. eexists. split; [reflexivity | ].
  unfold select_columns, TABLE_COLUMNS. cbn [columns find].
  fold (has_column (record_keys (members :: rest)) "name").
  fold (has_column (record_keys (members :: rest)) "symbol").
  fold (has_column (record_keys (members :: rest)) "current_price").
  fold (has_column (record_keys (members :: rest))
                   "price_change_percentage_24h").
  fold (has_column (record_keys (members :: rest)) "market_cap").
  rewrite !Hcol by (simpl; auto 10).
  reflexivity.
Qed.

Ltac run_with_facts :=
  repeat (run;
          match goal with
          | H : ?l = Ok _ |- context [?l] => rewrite H
          end);
  run.

(** The global view on well-formed data: no exception; without stats
    the metrics are left out. *)
Lemma global_view_total rt upstream (coin : json) (coins : list json)
      (stats : json) :
  forallb well_formed_coin (coin :: coins) = true ->
  outcome (get_global_data upstream) = Ok stats ->
  well_formed_stats stats = true ->
  outcome (global_view rt upstream (JArr (coin :: coins))) = Ok tt /\
  (py_truthy stats = false ->
   exists simple_df,
     trace (global_view rt upstream (JArr (coin :: coins)))
     = Show (st_title "Global Crypto Market") :: Http global_request ::
       global_widgets simple_df).
Proof.
  intros Hcoins Hstats Hwf.
  destruct (ranking_table_total rt coin coins Hcoins)
    as (df & simple_df & Hdf & Hsimple).
  unfold well_formed_stats in Hwf.
  split.
  - unfold global_view. run. rewrite Hstats. run.
    destruct (py_truthy stats).
    + cbn [negb orb] in Hwf.
      apply andb_true_iff in Hwf. destruct Hwf as [Hwf H3].
      apply andb_true_iff in Hwf. destruct Hwf as [H1 H2].
      unfold figure in H1, H2, H3.
      destruct (subscript stats "total_market_cap") as [caps | ] eqn:Hcaps;
        [ | discriminate H1].
      destruct (subscript stats "total_volume") as [vols | ] eqn:Hvols;
        [ | discriminate H2].
      destruct (subscript stats "market_cap_percentage") as [shares | ]
        eqn:Hshares; [ | discriminate H3].
      cbn [rbind] in H1, H2, H3.
      destruct (subscript caps "eur") as [total_mcap | ] eqn:Hmcap;
        [ | discriminate H1].
      destruct (subscript vols "eur") as [total_vol | ] eqn:Hvol;
        [ | discriminate H2].
      destruct (subscript shares "btc") as [btc | ] eqn:Hbtc;
        [ | discriminate H3].
      destruct (format_big_number_total rt total_mcap) as (s1 & Hs1);
        [destruct total_mcap; auto | ].
      destruct (format_big_number_total rt total_vol) as (s2 & Hs2);
        [destruct total_vol; auto | ].
      destruct (format_1f_total btc H3) as (s3 & Hs3).
      run_with_facts. reflexivity.
    + run_with_facts. reflexivity.
  - intros Hfalsy. exists simple_df.
    unfold global_view. run. rewrite get_global_data_trace, Hstats.
    rewrite Hfalsy. run_with_facts. reflexivity.
Qed.

Lemma well_formed_coin_shown rt upstream (coin : json) (days_int : Z) :
  well_formed_coin coin = true ->
  exists name symbol image price change high coin_id,
    subscript coin "name" = Ok name /\
    subscript coin "id" = Ok coin_id /\
    show_coin rt upstream coin days_int
    = (Ok tt,
       (coin_widgets rt name symbol image price change high days_int ++
        Http (history_request rt coin_id days_int) ::
        charts (fetched rt upstream coin_id days_int))%list).
Proof.
  intros Hwf.
  destruct (well_formed_coin_field coin "name" Hwf) as (name & Hname);
    [simpl; auto 10 | ].
  destruct (well_formed_coin_symbol coin Hwf) as (symbol & Hsymbol).
  destruct (well_formed_coin_field coin "image" Hwf) as (image & Himage);
    [simpl; auto 10 | ].
  destruct (well_formed_coin_field coin "current_price" Hwf) as (price & Hprice);
    [simpl; auto 10 | ].
  destruct (well_formed_coin_field coin "price_change_percentage_24h" Hwf)
    as (change & Hchange); [simpl; auto 10 | ].
  destruct (well_formed_coin_field coin "high_24h" Hwf) as (high & Hhigh);
    [simpl; auto 10 | ].
  destruct (well_formed_coin_field coin "id" Hwf) as (coin_id & Hid);
    [simpl; auto 10 | ].
  exists name, symbol, image, price, change, high, coin_id.
  split; [exact Hname | split; [exact Hid | ]].
  apply show_coin_run; auto using fetched_outcome.
Qed.

(** C2, as stated, fails: a well-received but incomplete stats object
    makes the pass raise. *)
Lemma main_raises_on_missing_key :
  outcome (main rt0
             (serve (ok200 (JArr [bitcoin])) (ok200 stats_without_eur)
                    (ok200 history_body))
             (JStr "Global Overview") "7 Days")
  = Raise (KeyError "eur").
Proof. vm_compute. reflexivity. Qed.

(** C2, amended: when the coin list is the empty sentinel or holds
    well-formed coins, and the global stats are the [None] sentinel or
    well formed, the pass does not raise, whatever the history request
    returns; the empty list gives the "could not load" notice, absent
    stats leave the metrics out, and absent history gives the chart
    notice. *)
Theorem main_total_on_well_formed
        (rt : runtime) (upstream : request -> result response)
        (selection : json) (days_option : string)
        (coins : list json) (stats : json) :
  outcome (get_coins_list upstream) = Ok (JArr coins) ->
  forallb well_formed_coin coins = true ->
  outcome (get_global_data upstream) = Ok stats ->
  well_formed_stats stats = true ->
  outcome (main rt upstream selection days_option) = Ok tt /\
  (coins = [] ->
   trace (main rt upstream selection days_option)
   = (header ++ trace (get_coins_list upstream) ++ could_not_load)%list) /\
  (coins <> [] -> py_eq selection GLOBAL_OVERVIEW = true ->
   py_truthy stats = false ->
   exists names simple_df,
     trace (main rt upstream selection days_option)
     = (header ++ trace (get_coins_list upstream) ++ sidebar names ++
        Show (st_title "Global Crypto Market") :: Http global_request ::
        global_widgets simple_df)%list) /\
  (forall (before after : list json) (coin name coin_id : json),
     coins = (before ++ coin :: after)%list ->
     py_eq selection GLOBAL_OVERVIEW = false ->
     (forall c n, In c before -> subscript c "name" = Ok n ->
                  py_eq n selection = false) ->
     subscript coin "name" = Ok name ->
     py_eq name selection = true ->
     subscript coin "id" = Ok coin_id ->
     fetched rt upstream coin_id (days_int_of days_option) = sentinel ->
     exists shown,
       trace (main rt upstream selection days_option)
       = (shown ++
          Http (history_request rt coin_id (days_int_of days_option)) ::
          chart_unavailable)%list).
Proof.
  intros Hcoins Hwf Hstats Hwfs.
  assert (Hin : forall c, In c coins -> well_formed_coin c = true)
    by (now apply forallb_forall).
  destruct (collect_names_total coins Hwf) as (names & Hnames).
  split; [ | split; [ | split]].
  - destruct coins as [ | coin rest].
    + now rewrite (main_empty rt upstream selection days_option _ Hcoins eq_refl).
    + rewrite (main_view rt upstream selection days_option _ _ _ names
                 Hcoins eq_refl (length_middle [] rest coin) eq_refl Hnames).
      cbn [outcome fst].
      destruct (py_eq selection GLOBAL_OVERVIEW).
      * apply (global_view_total rt upstream coin rest stats Hwf Hstats Hwfs).
      * destruct (find_coin_total _ names selection Hnames)
          as (found & Hfound & [-> | Hwhere]).
        -- now rewrite (detail_view_missing rt upstream _ selection _ Hfound).
        -- destruct (well_formed_coin_shown rt upstream found
                       (days_int_of days_option) (Hin found Hwhere))
             as (name & symbol & image & price & change & high & coin_id
                 & Hname & _ & Hshown).
           rewrite (detail_view_found rt upstream _ selection found _ Hfound
                      (subscript_truthy _ _ _ Hname)).
           now rewrite Hshown.
  - intros ->.
    now rewrite (main_empty rt upstream selection days_option _ Hcoins eq_refl).
  - intros Hne Hsel Hfalsy.
    destruct coins as [ | coin rest]; [contradiction | ].
    destruct (global_view_total rt upstream coin rest stats Hwf Hstats Hwfs)
      as (_ & Hview).
    destruct (Hview Hfalsy) as (simple_df & Htrace).
    exists names, simple_df.
    rewrite (main_view rt upstream selection days_option _ _ _ names
               Hcoins eq_refl (length_middle [] rest coin) eq_refl Hnames).
    rewrite Hsel. cbn [trace snd]. fold (trace (global_view rt upstream (JArr (coin :: rest)))).
    now rewrite Htrace.
  - intros before after coin name coin_id -> Hsel Hno Hname Heq Hid Hsentinel.
    rewrite (main_shows_first rt upstream selection days_option before after
               coin name names Hsel Hcoins Hnames Hno Hname Heq).
    destruct (well_formed_coin_shown rt upstream coin (days_int_of days_option))
      as (name' & symbol & image & price & change & high & coin_id'
          & _ & Hid' & Hshown).
    { apply Hin. apply in_elt. }
    rewrite Hid in Hid'. injection Hid' as <-.
    rewrite Hshown, Hsentinel. cbn [trace snd charts sentinel].
    eexists. rewrite !app_assoc. reflexivity.
Qed.

Lemma main_total_on_well_formed_witness :
  outcome (main rt0 history_down (JStr "Bitcoin") "30 Days") = Ok tt /\
  trace (main rt0 (fun _ => Raise RequestException) (JStr "Bitcoin") "30 Days")
  = (header ++ trace (get_coins_list (fun _ => Raise RequestException)) ++
     could_not_load)%list.
Proof.
  split.
  - apply (main_total_on_well_formed rt0 history_down (JStr "Bitcoin")
             "30 Days" [bitcoin] (or_else (subscript global_body "data") JNull));
      vm_compute; reflexivity.
  - apply (proj1 (proj2 (main_total_on_well_formed rt0
                           (fun _ => Raise RequestException) (JStr "Bitcoin")
                           "30 Days" [] JNull eq_refl eq_refl eq_refl eq_refl))).
    reflexivity.
Defined.

(** * Further properties *)

(** ** Requests of a call and of a pass *)

Lemma requests_of_app (t u : list event) :
  requests_of (t ++ u) = (requests_of t ++ requests_of u)%list.
Proof. apply flat_map_app. Qed.

Lemma requests_of_bind {A B : Type} (m : M A) (k : A -> M B) :
  requests_of (trace (bind m k))
  = (requests_of (trace m) ++
     match outcome m with
     | Ok a => requests_of (trace (k a))
     | Raise _ => []
     end)%list.
Proof.
  rewrite trace_bind, requests_of_app. now destruct (outcome m).
Qed.

Lemma requests_of_lift {A : Type} (r : result A) :
  requests_of (trace (lift r)) = [].
Proof. reflexivity. Qed.

Lemma requests_of_ret {A : Type} (a : A) : requests_of (trace (ret a)) = [].
Proof. reflexivity. Qed.

Lemma requests_of_show (w : widget) : requests_of (trace (emit (Show w))) = [].
Proof. reflexivity. Qed.

Lemma requests_of_coins_list upstream :
  requests_of (trace (get_coins_list upstream)) = [markets_request].
Proof.
  rewrite get_coins_list_trace. cbn [requests_of flat_map app]. f_equal.
  unfold coins_list_notes.
  destruct (upstream markets_request) as [r | e]; [ | reflexivity].
  destruct (status_code r =? 200); [ | reflexivity].
  destruct (body r); reflexivity.
Qed.

Lemma requests_of_global_data upstream :
  requests_of (trace (get_global_data upstream)) = [global_request].
Proof. now rewrite get_global_data_trace. Qed.

Lemma requests_of_coin_history rt upstream coin_id days :
  requests_of (trace (get_coin_history rt upstream coin_id days))
  = [history_request rt coin_id days].
Proof. now rewrite get_coin_history_trace. Qed.

Create Rewrite HintDb reqs.

#[local] Hint Rewrite @requests_of_bind @requests_of_lift @requests_of_ret
  requests_of_show requests_of_coins_list requests_of_global_data
  requests_of_coin_history @outcome_bind @outcome_lift @outcome_ret
  outcome_emit : reqs.

Ltac reqs :=
  repeat first
    [ progress (autorewrite with reqs; cbn [rbind app])
    | match goal with
      | |- context [match ?r with Ok _ => _ | Raise _ => _ end] =>
          destruct r; cbn [rbind app]
      | |- context [if ?c then _ else _] => destruct c
      | |- context [match ?x with (_, _) => _ end] => destruct x
      | |- context [match ?x with Some _ => _ | None => _ end] => destruct x
      end ].

(** X1: a call of a client function sends one request, to its own
    endpoint, whatever the upstream answers: nothing is retried.  The
    history and the global call leave nothing else, not even on
    failure. *)
Theorem client_single_request
        (rt : runtime) (upstream : request -> result response)
        (coin_id : json) (days : Z) :
  requests_of (trace (get_coins_list upstream)) = [markets_request] /\
  trace (get_coin_history rt upstream coin_id days)
  = [Http (history_request rt coin_id days)] /\
  trace (get_global_data upstream) = [Http global_request].
Proof.
  split; [ | split].
  - apply requests_of_coins_list.
  - apply get_coin_history_trace.
  - apply get_global_data_trace.
Qed.

Lemma requests_of_global_view rt upstream coins_data :
  requests_of (trace (global_view rt upstream coins_data)) = [global_request].
Proof. unfold global_view. reqs; reflexivity. Qed.

Lemma requests_of_show_coin rt upstream coin days_int :
  requests_of (trace (show_coin rt upstream coin days_int)) = [] \/
  exists coin_id,
    requests_of (trace (show_coin rt upstream coin days_int))
    = [history_request rt coin_id days_int].
Proof.
  unfold show_coin. reqs;
    first [left; reflexivity | right; eexists; reflexivity].
Qed.

(** X2: a pass sends the markets request first and then at most one
    more: the global one, or the history of one coin for the window
    chosen. *)
Theorem main_requests
        (rt : runtime) (upstream : request -> result response)
        (selection : json) (days_option : string) :
  let sent := requests_of (trace (main rt upstream selection days_option)) in
  sent = [markets_request] \/
  sent = [markets_request; global_request] \/
  exists coin_id,
    sent = [markets_request;
            history_request rt coin_id (days_int_of days_option)].
Proof.
  cbv zeta. unfold main.
  rewrite requests_of_bind, requests_of_show, outcome_emit. cbn [app].
  rewrite requests_of_bind, requests_of_show, outcome_emit. cbn [app].
  rewrite requests_of_bind, requests_of_coins_list. cbn [app].
  destruct (outcome (get_coins_list upstream)) as [coins_data | e];
    [ | now left].
  rewrite requests_of_bind, requests_of_lift, outcome_lift. cbn [app].
  destruct (py_len coins_data) as [n | e]; [ | now left].
  destruct (n =? 0); [now left | ].
  rewrite requests_of_bind, requests_of_lift, outcome_lift. cbn [app].
  destruct (py_iter coins_data) as [coins | e]; [ | now left].
  rewrite requests_of_bind, requests_of_lift, outcome_lift. cbn [app].
  destruct (collect_names coins) as [names | e]; [ | now left].
  rewrite requests_of_bind, requests_of_show, outcome_emit. cbn [app].
  rewrite requests_of_bind, requests_of_show, outcome_emit. cbn [app].
  rewrite requests_of_bind, requests_of_show, outcome_emit. cbn [app].
  destruct (py_eq selection GLOBAL_OVERVIEW).
  - right. left. now rewrite requests_of_global_view.
  - unfold detail_view.
    rewrite requests_of_bind, requests_of_lift, outcome_lift. cbn [app].
    destruct (py_iter coins_data) as [coins' | e]; [ | now left].
    rewrite requests_of_bind, requests_of_lift, outcome_lift. cbn [app].
    destruct (find_coin coins' selection) as [found | e]; [ | now left].
    destruct (py_truthy found); [ | now left].
    destruct (requests_of_show_coin rt upstream found (days_int_of days_option))
      as [-> | (coin_id & ->)]; [now left | right; right; eauto].
Qed.

(** ** Amounts at the edges *)

Lemma zero_spec : Prim2SF 0%float = S754_zero false.
Proof. vm_compute. reflexivity. Qed.

Lemma below_zero_below_million (x : float) :
  PrimFloat.ltb x 0%float = true -> PrimFloat.ltb x 1000000%float = true.
Proof.
  rewrite !ltb_spec. unfold SFltb. rewrite zero_spec, million_spec.
  destruct (Prim2SF x) as [s | s | | s m e]; cbn [SFcompare]; try congruence;
    destruct s; congruence.
Qed.

Lemma format_big_number_run rt (number : json) (value : float) :
  py_float rt number = Ok value ->
  format_big_number rt number =
  if PrimFloat.leb 1000000000%float value then
    Ok ("€ " ++ format_fixed false 2 (value / 1000000000)%float ++ " Mrd.")
  else if PrimFloat.leb 1000000%float value then
    Ok ("€ " ++ format_fixed false 2 (value / 1000000)%float ++ " Mio.")
  else Ok ("€ " ++ format_fixed true 2 value).
Proof.
  intros Hvalue.
  destruct number; try discriminate Hvalue;
    unfold format_big_number; rewrite Hvalue; reflexivity.
Qed.

(** X3: a negative amount is never abbreviated, however large: it is
    shown in full, with thousands separators and two decimals, the minus
    sign after the currency sign. *)
Theorem format_big_number_negative
        (rt : runtime) (number : json) (value : float) :
  py_float rt number = Ok value ->
  PrimFloat.ltb value 0%float = true ->
  format_big_number rt number = Ok ("€ " ++ format_fixed true 2 value) /\
  exists digits : string, format_fixed true 2 value = "-" ++ digits.
Proof.
  intros Hvalue Hneg. split.
  - rewrite (format_big_number_run rt number value Hvalue).
    pose proof (below_zero_below_million value Hneg) as Hm.
    rewrite (ltb_not_leb _ _ (below_million_below_billion _ Hm)).
    now rewrite (ltb_not_leb _ _ Hm).
  - revert Hneg. rewrite ltb_spec. unfold SFltb, format_fixed.
    rewrite zero_spec.
    destruct (Prim2SF value) as [s | s | | s m e]; cbn [SFcompare];
      try congruence; destruct s; try congruence; intros _;
      eexists; reflexivity.
Qed.

Lemma format_big_number_negative_witness :
  format_big_number rt0 (JInt (-5000000000)) = Ok "€ -5,000,000,000.00".
Proof.
  assert (Hv : py_float rt0 (JInt (-5000000000)) = Ok (-5000000000)%float)
    by (vm_compute; reflexivity).
  assert (Hneg : PrimFloat.ltb (-5000000000)%float 0%float = true)
    by (vm_compute; reflexivity).
  destruct (format_big_number_negative rt0 _ _ Hv Hneg) as (H & _).
  rewrite H. vm_compute. reflexivity.
Defined.

(** X4: an amount that is not a finite number is still formatted: NaN
    fails both comparisons and is shown as "nan" without suffix,
    positive infinity counts as billions, negative infinity as a small
    amount. *)
Theorem format_big_number_not_finite
        (rt : runtime) (number : json) (value : float) :
  py_float rt number = Ok value ->
  (Prim2SF value = S754_nan ->
   format_big_number rt number = Ok "€ nan") /\
  (Prim2SF value = S754_infinity false ->
   format_big_number rt number = Ok "€ inf Mrd.") /\
  (Prim2SF value = S754_infinity true ->
   format_big_number rt number = Ok "€ -inf").
Proof.
  intros Hvalue. rewrite (format_big_number_run rt number value Hvalue).
  split; [ | split]; intros Hspec.
  - rewrite !leb_spec. unfold SFleb, format_fixed. rewrite Hspec.
    reflexivity.
  - rewrite !leb_spec. unfold SFleb, format_fixed.
    rewrite div_spec, Hspec, billion_spec. reflexivity.
  - rewrite !leb_spec. unfold SFleb, format_fixed.
    rewrite Hspec, billion_spec, million_spec. reflexivity.
Qed.

Lemma format_big_number_not_finite_witness :
  format_big_number rt0 (JFloat nan) = Ok "€ nan" /\
  format_big_number rt0 (JFloat infinity) = Ok "€ inf Mrd." /\
  format_big_number rt0 (JFloat neg_infinity) = Ok "€ -inf".
Proof.
  split; [ | split].
  - apply (proj1 (format_big_number_not_finite rt0 (JFloat nan) nan eq_refl)).
    vm_compute. reflexivity.
  - apply (proj1 (proj2 (format_big_number_not_finite rt0 (JFloat infinity)
                           infinity eq_refl))).
    vm_compute. reflexivity.
  - apply (proj2 (proj2 (format_big_number_not_finite rt0 (JFloat neg_infinity)
                           neg_infinity eq_refl))).
    vm_compute. reflexivity.
Defined.

(** X5: whenever the number rendered is finite, the result is the
    currency sign, the number with a decimal point and exactly two
    digits after it, and then " Mrd.", " Mio." or nothing. *)
Theorem format_big_number_two_decimals
        (rt : runtime) (number : json) (value : float) :
  py_float rt number = Ok value ->
  is_finite (shown_number value) = true ->
  exists front frac suffix : string,
    format_big_number rt number
    = Ok ("€ " ++ (front ++ "." ++ frac) ++ suffix) /\
    String.length frac = 2%nat /\
    (suffix = " Mrd." \/ suffix = " Mio." \/ suffix = "").
Proof.
  intros Hvalue Hfinite.
  rewrite (format_big_number_run rt number value Hvalue).
  unfold shown_number, is_finite in Hfinite.
  assert (Hshape : forall comma x,
             match Prim2SF x with
             | S754_zero _ | S754_finite _ _ _ => true
             | _ => false
             end = true ->
             exists front frac,
               format_fixed comma 2 x = front ++ "." ++ frac /\
               String.length frac = 2%nat).
  { intros comma x Hx. apply format_fixed_two_decimals.
    destruct (Prim2SF x); try discriminate Hx; exact I. }
  destruct (PrimFloat.leb 1000000000%float value).
  - destruct (Hshape false _ Hfinite) as (front & frac & -> & Hlen).
    exists front, frac, " Mrd.". auto.
  - destruct (PrimFloat.leb 1000000%float value).
    + destruct (Hshape false _ Hfinite) as (front & frac & -> & Hlen).
      exists front, frac, " Mio.". auto.
    + destruct (Hshape true _ Hfinite) as (front & frac & -> & Hlen).
      exists front, frac, "". split; [ | auto].
      f_equal. f_equal. clear.
      induction (front ++ "." ++ frac) as [ | c s IH]; [reflexivity | ].
      cbn. now rewrite <- IH.
Qed.

Lemma format_big_number_two_decimals_witness :
  exists front frac suffix : string,
    format_big_number rt0 (JFloat 1234567.875%float)
    = Ok ("€ " ++ (front ++ "." ++ frac) ++ suffix) /\
    String.length frac = 2%nat /\
    (suffix = " Mrd." \/ suffix = " Mio." \/ suffix = "").
Proof.
  apply (format_big_number_two_decimals rt0 (JFloat 1234567.875%float)
           1234567.875%float eq_refl).
  vm_compute. reflexivity.
Defined.

(** ** What a client call leaves *)

(** X6: what a call of [get_coins_list] gives and leaves: the decoded
    body, unchanged and unchecked, on status 200; the empty list and
    one console line, with no widget, on any other status; the empty
    list and an error box naming the exception when the request or the
    decoding raises. *)
Theorem get_coins_list_feedback (upstream : request -> result response) :
  (forall (r : response) (data : json),
     upstream markets_request = Ok r -> status_code r = 200 ->
     body r = Ok data ->
     get_coins_list upstream = (Ok data, [Http markets_request])) /\
  (forall r : response,
     upstream markets_request = Ok r -> status_code r <> 200 ->
     get_coins_list upstream
     = (Ok (JArr []), [Http markets_request; Print "Error loading coins"])) /\
  (forall e : exn,
     upstream markets_request = Raise e ->
     get_coins_list upstream
     = (Ok (JArr []),
        [Http markets_request;
         Show (st_error "Error connecting to API: " e)])) /\
  (forall (r : response) (e : exn),
     upstream markets_request = Ok r -> status_code r = 200 ->
     body r = Raise e ->
     get_coins_list upstream
     = (Ok (JArr []),
        [Http markets_request;
         Show (st_error "Error connecting to API: " e)])).
Proof.
  split; [ | split; [ | split]].
  - intros r data Hr Hs Hb. apply M_eq.
    + rewrite get_coins_list_outcome, Hr. cbn [rbind]. now rewrite Hs, Hb.
    + rewrite get_coins_list_trace, Hr. cbn [coins_list_notes].
      now rewrite Hs, Hb.
  - intros r Hr Hs. apply Z.eqb_neq in Hs. apply M_eq.
    + rewrite get_coins_list_outcome, Hr. cbn [rbind]. now rewrite Hs.
    + rewrite get_coins_list_trace, Hr. cbn [coins_list_notes].
      now rewrite Hs.
  - intros e He. apply M_eq.
    + now rewrite get_coins_list_outcome, He.
    + now rewrite get_coins_list_trace, He.
  - intros r e Hr Hs Hb. apply M_eq.
    + rewrite get_coins_list_outcome, Hr. cbn [rbind]. now rewrite Hs, Hb.
    + rewrite get_coins_list_trace, Hr. cbn [coins_list_notes].
      now rewrite Hs, Hb.
Qed.

Lemma get_coins_list_feedback_witness :
  get_coins_list (fun _ => ok200 (JObj [("error", JStr "unexpected")]))
  = (Ok (JObj [("error", JStr "unexpected")]), [Http markets_request]) /\
  get_coins_list
    (fun _ => Ok {| status_code := 500; body := Ok (JArr [bitcoin]) |})
  = (Ok (JArr []), [Http markets_request; Print "Error loading coins"]) /\
  get_coins_list (fun _ => Raise RequestException)
  = (Ok (JArr []),
     [Http markets_request;
      Show (st_error "Error connecting to API: " RequestException)]).
Proof.
  split; [ | split].
  - apply (proj1 (get_coins_list_feedback _)
             {| status_code := 200;
                body := Ok (JObj [("error", JStr "unexpected")]) |});
      reflexivity.
  - apply (proj1 (proj2 (get_coins_list_feedback _))
             {| status_code := 500; body := Ok (JArr [bitcoin]) |}).
    + reflexivity.
    + simpl. lia.
  - apply (proj1 (proj2 (proj2 (get_coins_list_feedback _)))
             RequestException).
    reflexivity.
Defined.

Lemma length_append (a b : string) :
  String.length (a ++ b) = (String.length a + String.length b)%nat.
Proof. induction a as [ | ch a IH]; cbn; [ | rewrite IH]; reflexivity. Qed.

Lemma append_cancel_r (a b s : string) : a ++ s = b ++ s -> a = b.
Proof.
  revert b. induction a as [ | ch a IH]; intros [ | ch' b] H; cbn in H.
  - reflexivity.
  - apply (f_equal String.length) in H. cbn in H.
    rewrite length_append in H. lia.
  - apply (f_equal String.length) in H. cbn in H.
    rewrite length_append in H. lia.
  - injection H as -> H. f_equal. now apply IH.
Qed.

(** X7: the history request names the coin and the window: two calls
    leave the same request only for the same id text and the same number
    of days, and it is never the request of the global or of the markets
    call. *)
Theorem history_request_distinct
        (rt : runtime) (upstream upstream' : request -> result response)
        (coin_id coin_id' : json) (days days' : Z) :
  (trace (get_coin_history rt upstream coin_id days)
   = trace (get_coin_history rt upstream' coin_id' days') ->
   py_str rt coin_id = py_str rt coin_id' /\ days = days') /\
  trace (get_coin_history rt upstream coin_id days)
  <> trace (get_global_data upstream') /\
  requests_of (trace (get_coin_history rt upstream coin_id days))
  <> requests_of (trace (get_coins_list upstream')).
Proof.
  rewrite !get_coin_history_trace, get_global_data_trace.
  rewrite requests_of_coins_list.
  split; [ | split].
  - unfold history_request. intros H. injection H as Hurl Hdays.
    split; [ | exact Hdays].
    now apply append_cancel_r in Hurl.
  - unfold history_request, global_request. intros H. discriminate H.
  - unfold history_request, markets_request. cbn. intros H. discriminate H.
Qed.

Lemma history_request_distinct_witness :
  py_str rt0 (JStr "bitcoin") = py_str rt0 (JStr "bitcoin") /\ 30 = 30.
Proof.
  apply (proj1 (history_request_distinct rt0 three_coins history_down
                  (JStr "bitcoin") (JStr "bitcoin") 30 30)).
  reflexivity.
Defined.

(** ** History arrays, point for point *)










(** X10: a transport failure, a body that is not JSON and a body that is
    not an object all give the sentinel, whatever the status code. *)
Theorem get_coin_history_failures
        (rt : runtime) (upstream : request -> result response)
        (coin_id : json) (days : Z) :
  (forall e : exn,
     upstream (history_request rt coin_id days) = Raise e ->
     outcome (get_coin_history rt upstream coin_id days) = Ok sentinel) /\
  (forall (r : response) (e : exn),
     upstream (history_request rt coin_id days) = Ok r ->
     body r = Raise e ->
     outcome (get_coin_history rt upstream coin_id days) = Ok sentinel) /\
  (forall (r : response) (data : json),
     upstream (history_request rt coin_id days) = Ok r ->
     body r = Ok data ->
     (forall members, data <> JObj members) ->
     outcome (get_coin_history rt upstream coin_id days) = Ok sentinel).
Proof.
  rewrite get_coin_history_outcome. split; [ | split].
  - intros e He. now rewrite He.
  - intros r e Hr Hb. rewrite Hr. cbn [rbind]. now rewrite Hb.
  - intros r data Hr Hb Hshape. rewrite Hr. cbn [rbind]. rewrite Hb.
    cbn [rbind]. unfold parse_history.
    destruct data as [ | | | | | | members]; try reflexivity.
    now destruct (Hshape members).
Qed.

Lemma get_coin_history_failures_witness :
  outcome (get_coin_history rt0 (fun _ => Raise RequestException)
                            (JStr "bitcoin") 7) = Ok sentinel /\
  outcome (get_coin_history rt0
             (fun _ => Ok {| status_code := 200;
                             body := Raise JSONDecodeError |})
             (JStr "bitcoin") 7) = Ok sentinel /\
  outcome (get_coin_history rt0 (fun _ => ok200 (JArr [point 1000 10]))
                            (JStr "bitcoin") 7) = Ok sentinel.
Proof.
  split; [ | split].
  - apply (proj1 (get_coin_history_failures rt0 _ (JStr "bitcoin") 7)
             RequestException). reflexivity.
  - apply (proj1 (proj2 (get_coin_history_failures rt0 _ (JStr "bitcoin") 7))
             {| status_code := 200; body := Raise JSONDecodeError |}
             JSONDecodeError); reflexivity.
  - apply (proj2 (proj2 (get_coin_history_failures rt0 _ (JStr "bitcoin") 7))
             {| status_code := 200; body := Ok (JArr [point 1000 10]) |}
             (JArr [point 1000 10])); try reflexivity.
    discriminate.
Defined.

(** ** The start of a pass *)

Lemma collect_names_names (coins names : list json) :
  Forall2 (fun coin name => subscript coin "name" = Ok name) coins names ->
  collect_names coins = Ok names.
Proof.
  induction 1 as [ | coin name coins names Hname _ IH]; [reflexivity | ].
  cbn [collect_names]. rewrite Hname. cbn [rbind]. now rewrite IH.
Qed.

Lemma collect_names_stops (before after : list json) (bad : json)
      (names : list json) (e : exn) :
  Forall2 (fun coin name => subscript coin "name" = Ok name) before names ->
  subscript bad "name" = Raise e ->
  collect_names (before ++ bad :: after) = Raise e.
Proof.
  intros Hbefore Hbad.
  induction Hbefore as [ | coin name coins names Hname _ IH].
  - cbn [app collect_names]. now rewrite Hbad.
  - cbn [app collect_names]. rewrite Hname. cbn [rbind]. now rewrite IH.
Qed.

(** A pass whose name loop raises stops there, before the select box. *)
Lemma main_names_raise rt upstream selection days_option
      coins_data n coins e :
  outcome (get_coins_list upstream) = Ok coins_data ->
  py_len coins_data = Ok n -> n <> 0 ->
  py_iter coins_data = Ok coins ->
  collect_names coins = Raise e ->
  main rt upstream selection days_option
  = (Raise e, (header ++ trace (get_coins_list upstream))%list).
Proof.
  intros Hcoins Hlen Hn Hiter Hnames.
  apply Z.eqb_neq in Hn.
  apply M_eq; unfold main; run.
  - rewrite Hcoins. run. rewrite Hlen. run. rewrite Hn. run.
    rewrite Hiter. run. rewrite Hnames. reflexivity.
  - rewrite Hcoins. run. rewrite Hlen. run. rewrite Hn. run.
    rewrite Hiter. run. rewrite Hnames. cbn [header app].
    now rewrite app_nil_r.
Qed.

Lemma main_len_raise rt upstream selection days_option coins_data e :
  outcome (get_coins_list upstream) = Ok coins_data ->
  py_len coins_data = Raise e ->
  main rt upstream selection days_option
  = (Raise e, (header ++ trace (get_coins_list upstream))%list).
Proof.
  intros Hcoins Hlen.
  apply M_eq; unfold main; run.
  - rewrite Hcoins. run. rewrite Hlen. reflexivity.
  - rewrite Hcoins. run. rewrite Hlen. cbn [header app].
    now rewrite app_nil_r.
Qed.

(** X11: when every coin has a name, the select box offers
    "Global Overview" first and then the name of every coin, in the
    order fetched. *)
Theorem select_box_options
        (rt : runtime) (upstream : request -> result response)
        (selection : json) (days_option : string)
        (coins names : list json) :
  outcome (get_coins_list upstream) = Ok (JArr coins) ->
  coins <> [] ->
  Forall2 (fun coin name => subscript coin "name" = Ok name) coins names ->
  exists after : list event,
    trace (main rt upstream selection days_option)
    = (header ++ trace (get_coins_list upstream) ++
       Show (st_sidebar_selectbox "Choose View" (GLOBAL_OVERVIEW :: names)) ::
       after)%list.
Proof.
  intros Hcoins Hne Hnames.
  assert (Hlen : Z.of_nat (List.length coins) <> 0)
    by (destruct coins; [contradiction | simpl; lia]).
  rewrite (main_view rt upstream selection days_option _ _ _ names
             Hcoins eq_refl Hlen eq_refl (collect_names_names _ _ Hnames)).
  cbn [trace snd sidebar app]. eauto.
Qed.

Lemma select_box_options_witness :
  exists after : list event,
    trace (main rt0 three_coins (JStr "Ethereum") "7 Days")
    = (header ++ trace (get_coins_list three_coins) ++
       Show (st_sidebar_selectbox "Choose View"
               [JStr "Global Overview"; JStr "Ethereum"; JStr "Bitcoin";
                JStr "Bitcoin"]) :: after)%list.
Proof.
  apply (select_box_options rt0 three_coins (JStr "Ethereum") "7 Days"
           [ethereum; bitcoin; bitcoin_twin]).
  - reflexivity.
  - discriminate.
  - repeat constructor.
Defined.

(** X12: one coin without a usable name stops the pass: the exception
    of that subscript is raised after the markets request, and neither
    the select box, nor the radio group, nor any view is drawn, whatever
    was selected. *)
Theorem nameless_coin_stops_pass
        (rt : runtime) (upstream : request -> result response)
        (selection : json) (days_option : string)
        (before after : list json) (bad : json) (names : list json) (e : exn) :
  outcome (get_coins_list upstream) = Ok (JArr (before ++ bad :: after)) ->
  Forall2 (fun coin name => subscript coin "name" = Ok name) before names ->
  subscript bad "name" = Raise e ->
  main rt upstream selection days_option
  = (Raise e, (header ++ trace (get_coins_list upstream))%list).
Proof.
  intros Hcoins Hbefore Hbad.
  apply (main_names_raise rt upstream selection days_option _ _ _ e
           Hcoins eq_refl (length_middle before after bad) eq_refl).
  now apply collect_names_stops with (names := names).
Qed.

Lemma nameless_coin_stops_pass_witness :
  main rt0 (fun _ => ok200 (JArr [bitcoin; JObj [("id", JStr "x")]; ethereum]))
       (JStr "Bitcoin") "7 Days"
  = (Raise (KeyError "name"),
     (header ++
      trace (get_coins_list
               (fun _ => ok200 (JArr [bitcoin; JObj [("id", JStr "x")];
                                      ethereum]))))%list).
Proof.
  apply (nameless_coin_stops_pass rt0 _ (JStr "Bitcoin") "7 Days"
           [bitcoin] [ethereum] (JObj [("id", JStr "x")]) [JStr "Bitcoin"]).
  - reflexivity.
  - repeat constructor.
  - reflexivity.
Defined.

Lemma get_coins_list_body upstream (r : response) (data : json) :
  upstream markets_request = Ok r -> status_code r = 200 ->
  body r = Ok data ->
  outcome (get_coins_list upstream) = Ok data /\
  trace (get_coins_list upstream) = [Http markets_request].
Proof.
  intros Hr Hs Hb.
  rewrite get_coins_list_outcome, get_coins_list_trace, Hr.
  cbn [rbind or_else coins_list_notes]. now rewrite Hs, Hb.
Qed.

(** X13: a 200 answer of the markets endpoint that is not a list is not
    recognised as a failure: a scalar body and a non-empty object make
    the pass raise [TypeError] right after the request, and only an
    empty object is taken for "no data". *)
Theorem markets_body_not_a_list
        (rt : runtime) (upstream : request -> result response)
        (selection : json) (days_option : string)
        (r : response) (data : json) :
  upstream markets_request = Ok r -> status_code r = 200 ->
  body r = Ok data ->
  (is_scalar data = true ->
   main rt upstream selection days_option
   = (Raise TypeError, (header ++ [Http markets_request])%list)) /\
  (forall member members, data = JObj (member :: members) ->
   main rt upstream selection days_option
   = (Raise TypeError, (header ++ [Http markets_request])%list)) /\
  (data = JObj [] ->
   main rt upstream selection days_option
   = (Ok tt, (header ++ [Http markets_request] ++ could_not_load)%list)).
Proof.
  intros Hr Hs Hb.
  destruct (get_coins_list_body upstream r data Hr Hs Hb) as (Hout & Htrace).
  split; [ | split].
  - intros Hscalar.
    rewrite (main_len_raise rt upstream selection days_option data TypeError
               Hout); [now rewrite Htrace | ].
    destruct data; try discriminate Hscalar; reflexivity.
  - intros [key value] members ->.
    rewrite (main_names_raise rt upstream selection days_option
               (JObj ((key, value) :: members))
               (Z.of_nat (List.length ((key, value) :: members)))
               (map (fun kv => JStr (fst kv)) ((key, value) :: members))
               TypeError Hout eq_refl);
      [now rewrite Htrace | simpl; lia | reflexivity | reflexivity].
  - intros ->.
    rewrite (main_empty rt upstream selection days_option (JObj []) Hout
               eq_refl).
    now rewrite Htrace.
Qed.

Lemma markets_body_not_a_list_witness :
  main rt0 (fun _ => ok200 (JObj [("error", JStr "coin not found")]))
       (JStr "Bitcoin") "7 Days"
  = (Raise TypeError, (header ++ [Http markets_request])%list) /\
  main rt0 (fun _ => ok200 JNull) (JStr "Bitcoin") "7 Days"
  = (Raise TypeError, (header ++ [Http markets_request])%list) /\
  main rt0 (fun _ => ok200 (JObj [])) (JStr "Bitcoin") "7 Days"
  = (Ok tt, (header ++ [Http markets_request] ++ could_not_load)%list).
Proof.
  split; [ | split].
  - apply (proj1 (proj2 (markets_body_not_a_list rt0 _ (JStr "Bitcoin")
                           "7 Days"
                           {| status_code := 200;
                              body := Ok (JObj [("error",
                                                 JStr "coin not found")]) |}
                           _ eq_refl eq_refl eq_refl))
             ("error", JStr "coin not found") []).
    reflexivity.
  - apply (proj1 (markets_body_not_a_list rt0 _ (JStr "Bitcoin") "7 Days"
                    {| status_code := 200; body := Ok JNull |}
                    JNull eq_refl eq_refl eq_refl)).
    reflexivity.
  - apply (proj2 (proj2 (markets_body_not_a_list rt0 _ (JStr "Bitcoin")
                           "7 Days"
                           {| status_code := 200; body := Ok (JObj []) |}
                           (JObj []) eq_refl eq_refl eq_refl))).
    reflexivity.
Defined.

(** X14: when the markets request fails in transport, is answered
    with a status other than 200, with a body that is not JSON, or with
    an empty list, the pass ends with the "could not load" notice,
    sends no second request and draws no select box, whatever the
    selection and the window are. *)
Theorem markets_unavailable
        (rt : runtime) (upstream : request -> result response)
        (selection : json) (days_option : string) :
  (exists e, upstream markets_request = Raise e) \/
  (exists r, upstream markets_request = Ok r /\
             (status_code r <> 200 \/
              (exists e, body r = Raise e) \/
              body r = Ok (JArr []))) ->
  main rt upstream selection days_option
  = (Ok tt,
     (header ++
      Http markets_request :: coins_list_notes (upstream markets_request) ++
      could_not_load)%list).
Proof.
  intros Hcause.
  assert (Hout : outcome (get_coins_list upstream) = Ok (JArr [])).
  { rewrite get_coins_list_outcome.
    destruct Hcause as [(e & ->) | (r & -> & Hr)]; [reflexivity | ].
    cbn [rbind].
    destruct Hr as [Hs | [(e & Hb) | Hb]].
    - apply Z.eqb_neq in Hs. now rewrite Hs.
    - destruct (status_code r =? 200); [rewrite Hb | ]; reflexivity.
    - destruct (status_code r =? 200); [rewrite Hb | ]; reflexivity. }
  rewrite (main_empty rt upstream selection days_option _ Hout eq_refl).
  now rewrite get_coins_list_trace.
Qed.

Lemma markets_unavailable_witness :
  main rt0 (fun _ => Ok {| status_code := 429; body := Ok (JArr [bitcoin]) |})
       (JStr "Bitcoin") "30 Days"
  = (Ok tt,
     (header ++ [Http markets_request; Print "Error loading coins"] ++
      could_not_load)%list).
Proof.
  apply (markets_unavailable rt0
           (fun _ => Ok {| status_code := 429; body := Ok (JArr [bitcoin]) |})
           (JStr "Bitcoin") "30 Days").
  right. exists {| status_code := 429; body := Ok (JArr [bitcoin]) |}.
  split; [reflexivity | ]. left. simpl. lia.
Defined.

(** ** The coin view *)

(** X15: with a coin name selected the pass never draws the ranking
    table or its heading, and the only metrics it draws are the coin's
    price, change and high. *)
Theorem coin_view_widgets
        (rt : runtime) (upstream : request -> result response)
        (selection : json) (days_option : string) :
  py_eq selection GLOBAL_OVERVIEW = false ->
  Forall detail_pass_widget (trace (main rt upstream selection days_option)).
Proof.
  intros Hsel. unfold main. rewrite Hsel.
  all_events; cbn; auto; discriminate.
Qed.

Lemma coin_view_widgets_witness :
  Forall detail_pass_widget
         (trace (main rt0 three_coins (JStr "Ethereum") "90 Days")).
Proof.
  apply (coin_view_widgets rt0 three_coins (JStr "Ethereum") "90 Days").
  reflexivity.
Defined.

Lemma py_eq_to_str (v : json) (s : string) :
  py_eq v (JStr s) = true -> v = JStr s.
Proof.
  destruct v as [ | | | | t | xs | kvs]; try discriminate.
  cbn [py_eq]. intros H. apply String.eqb_eq in H. now subst.
Qed.

(** Every name the select box offers is the name of a coin the scan
    finds. *)
Lemma find_coin_offered (coins names : list json) (s : string) :
  Forall2 (fun coin name => subscript coin "name" = Ok name) coins names ->
  In (JStr s) names ->
  exists coin,
    find_coin coins (JStr s) = Ok coin /\ In coin coins /\
    subscript coin "name" = Ok (JStr s).
Proof.
  induction 1 as [ | coin name coins names Hname _ IH]; intros Hin.
  - contradiction.
  - cbn [find_coin]. rewrite Hname. cbn [rbind].
    destruct (py_eq name (JStr s)) eqn:Heq.
    + apply py_eq_to_str in Heq. subst name.
      exists coin. repeat split; [now left | exact Hname].
    + destruct Hin as [-> | Hin].
      * cbn [py_eq] in Heq. now rewrite String.eqb_refl in Heq.
      * destruct (IH Hin) as (found & Hfound & Hwhere & Hfn).
        exists found. repeat split; [exact Hfound | now right | exact Hfn].
Qed.

(** X16: a coin name offered by the select box is always found: when
    names are strings, selecting any offered name other than
    "Global Overview" shows a coin of the list that has this very
    name, so the not-found branch is never taken. *)
Theorem offered_name_is_found
        (rt : runtime) (upstream : request -> result response)
        (s days_option : string) (coins names : list json) :
  outcome (get_coins_list upstream) = Ok (JArr coins) ->
  Forall2 (fun coin name => subscript coin "name" = Ok name) coins names ->
  In (JStr s) names ->
  s <> "Global Overview" ->
  exists coin,
    In coin coins /\ subscript coin "name" = Ok (JStr s) /\
    let shown := show_coin rt upstream coin (days_int_of days_option) in
    main rt upstream (JStr s) days_option
    = (outcome shown,
       (header ++ trace (get_coins_list upstream) ++ sidebar names ++
        trace shown)%list).
Proof.
  intros Hcoins Hnames Hin Hs.
  destruct (find_coin_offered coins names s Hnames Hin)
    as (coin & Hfound & Hwhere & Hname).
  exists coin. split; [exact Hwhere | split; [exact Hname | ]].
  assert (Hlen : Z.of_nat (List.length coins) <> 0)
    by (destruct coins; [contradiction | simpl; lia]).
  assert (Hsel : py_eq (JStr s) GLOBAL_OVERVIEW = false)
    by (apply String.eqb_neq; exact Hs).
  cbv zeta.
  rewrite (main_view rt upstream (JStr s) days_option _ _ _ names
             Hcoins eq_refl Hlen eq_refl (collect_names_names _ _ Hnames)).
  rewrite Hsel.
  now rewrite (detail_view_found rt upstream coins (JStr s) coin _ Hfound
                 (subscript_truthy _ _ _ Hname)).
Qed.

Lemma offered_name_is_found_witness :
  exists coin,
    In coin [ethereum; bitcoin; bitcoin_twin] /\
    subscript coin "name" = Ok (JStr "Bitcoin") /\
    main rt0 three_coins (JStr "Bitcoin") "7 Days"
    = (outcome (show_coin rt0 three_coins coin 7),
       (header ++ trace (get_coins_list three_coins) ++
        sidebar [JStr "Ethereum"; JStr "Bitcoin"; JStr "Bitcoin"] ++
        trace (show_coin rt0 three_coins coin 7))%list).
Proof.
  apply (offered_name_is_found rt0 three_coins "Bitcoin" "7 Days"
           [ethereum; bitcoin; bitcoin_twin]
           [JStr "Ethereum"; JStr "Bitcoin"; JStr "Bitcoin"]).
  - reflexivity.
  - repeat constructor.
  - simpl. auto.
  - discriminate.
Defined.

Lemma show_coin_symbol_raises rt upstream coin days_int name e :
  subscript coin "name" = Ok name ->
  (symbol <- subscript coin "symbol" ;; upper rt symbol)%result = Raise e ->
  show_coin rt upstream coin days_int = (Raise e, []).
Proof.
  intros Hname Hsym.
  apply M_eq; unfold show_coin; run; rewrite Hname; run.
  - destruct (subscript coin "symbol") as [symbol | ]; run;
      cbn [rbind] in Hsym; [ | congruence].
    now rewrite Hsym.
  - destruct (subscript coin "symbol") as [symbol | ]; run;
      cbn [rbind] in Hsym; [ | reflexivity].
    now rewrite Hsym.
Qed.

(** X17: when the coin found has no symbol, or a symbol that is not a
    string, the pass raises ([KeyError] and [AttributeError]) before
    anything of the coin is drawn and before any history request. *)
Theorem coin_without_symbol
        (rt : runtime) (upstream : request -> result response)
        (selection : json) (days_option : string)
        (before after : list json) (coin name : json) (names : list json) :
  py_eq selection GLOBAL_OVERVIEW = false ->
  outcome (get_coins_list upstream) = Ok (JArr (before ++ coin :: after)) ->
  collect_names (before ++ coin :: after) = Ok names ->
  (forall c n, In c before -> subscript c "name" = Ok n ->
               py_eq n selection = false) ->
  subscript coin "name" = Ok name ->
  py_eq name selection = true ->
  (forall e, subscript coin "symbol" = Raise e ->
   main rt upstream selection days_option
   = (Raise e,
      (header ++ trace (get_coins_list upstream) ++ sidebar names)%list)) /\
  (forall symbol, subscript coin "symbol" = Ok symbol ->
   (forall text, symbol <> JStr text) ->
   main rt upstream selection days_option
   = (Raise AttributeError,
      (header ++ trace (get_coins_list upstream) ++ sidebar names)%list)).
Proof.
  intros Hsel Hcoins Hnames Hno Hname Heq.
  pose proof (main_shows_first rt upstream selection days_option before after
                coin name names Hsel Hcoins Hnames Hno Hname Heq) as Hmain.
  cbv zeta in Hmain. split.
  - intros e Hsym. rewrite Hmain.
    rewrite (show_coin_symbol_raises rt upstream coin _ name e Hname)
      by (now rewrite Hsym).
    cbn [outcome trace fst snd]. now rewrite app_nil_r.
  - intros symbol Hsym Hshape. rewrite Hmain.
    rewrite (show_coin_symbol_raises rt upstream coin _ name AttributeError
               Hname).
    + cbn [outcome trace fst snd]. now rewrite app_nil_r.
    + rewrite Hsym. cbn [rbind].
      destruct symbol; try reflexivity. now destruct (Hshape s).
Qed.

Lemma coin_without_symbol_witness :
  main rt0 nova_only (JStr "Nova") "7 Days"
  = (Raise AttributeError,
     (header ++ trace (get_coins_list nova_only) ++
      sidebar [JStr "Nova"])%list).
Proof.
  assert (Hno : forall c n : json, In c [] -> subscript c "name" = Ok n ->
                                   py_eq n (JStr "Nova") = false)
    by (intros c n []).
  apply (proj2 (coin_without_symbol rt0 nova_only (JStr "Nova") "7 Days"
                  [] [] nova (JStr "Nova") [JStr "Nova"]
                  eq_refl eq_refl eq_refl Hno eq_refl eq_refl) JNull).
  - reflexivity.
  - discriminate.
Defined.

(** ** The metrics panel *)

(** X18: with global stats present, the panel shows the formatted
    market cap and volume and the share of BTC to one decimal followed
    by " %", in that order; the panel is drawn widget by widget, so a
    share that cannot be formatted raises after the two amounts are on
    the screen. *)
Theorem global_metrics_panel
        (rt : runtime) (upstream : request -> result response)
        (coins_data stats total_mcap total_vol btc_percentage : json)
        (mcap vol : string) :
  outcome (get_global_data upstream) = Ok stats ->
  py_truthy stats = true ->
  figure stats "total_market_cap" "eur" = Ok total_mcap ->
  figure stats "total_volume" "eur" = Ok total_vol ->
  figure stats "market_cap_percentage" "btc" = Ok btc_percentage ->
  format_big_number rt total_mcap = Ok mcap ->
  format_big_number rt total_vol = Ok vol ->
  (forall share : string,
     format_1f btc_percentage = Ok share ->
     exists rest : list event,
       trace (global_view rt upstream coins_data)
       = (Show (st_title "Global Crypto Market") :: Http global_request ::
          metrics_panel mcap vol share ++
          Show (st_write "---") :: Show (st_subheader "Top 100 Rankings") ::
          rest)%list) /\
  (forall e : exn,
     format_1f btc_percentage = Raise e ->
     global_view rt upstream coins_data
     = (Raise e,
        [Show (st_title "Global Crypto Market"); Http global_request;
         Show (st_columns 3);
         Show (st_metric 1 "Market Cap" mcap None);
         Show (st_metric 2 "Volume (24h)" vol None)])).
Proof.
  intros Hstats Htruthy Hmcap Hvol Hbtc Hfm Hfv.
  unfold figure in Hmcap, Hvol, Hbtc.
  destruct (subscript stats "total_market_cap") as [caps | ] eqn:Hcaps;
    [ | discriminate Hmcap].
  destruct (subscript stats "total_volume") as [vols | ] eqn:Hvols;
    [ | discriminate Hvol].
  destruct (subscript stats "market_cap_percentage") as [shares | ]
    eqn:Hshares; [ | discriminate Hbtc].
  cbn [rbind] in Hmcap, Hvol, Hbtc.
  split.
  - intros share Hshare.
    unfold global_view. run. rewrite get_global_data_trace, Hstats. run.
    rewrite Htruthy. run_with_facts.
    cbn [app metrics_panel]. eexists. reflexivity.
  - intros e Hshare.
    apply M_eq; unfold global_view; run.
    + rewrite Hstats. run. rewrite Htruthy. run_with_facts.
      now rewrite Hshare.
    + rewrite get_global_data_trace, Hstats. run. rewrite Htruthy.
      run_with_facts. now rewrite Hshare.
Qed.

Lemma global_metrics_panel_witness :
  global_view rt0 sparse_upstream (JArr [bitcoin])
  = (Raise TypeError,
     [Show (st_title "Global Crypto Market"); Http global_request;
      Show (st_columns 3);
      Show (st_metric 1 "Market Cap" "N/A" None);
      Show (st_metric 2 "Volume (24h)" "€ 90.00 Mrd." None)]).
Proof.
  assert (Hvol : format_big_number rt0 (JInt 90000000000) = Ok "€ 90.00 Mrd.")
    by (vm_compute; reflexivity).
  apply (proj2 (global_metrics_panel rt0 sparse_upstream (JArr [bitcoin])
                  sparse_stats JNull (JInt 90000000000) JNull
                  "N/A" "€ 90.00 Mrd."
                  eq_refl eq_refl eq_refl eq_refl eq_refl eq_refl Hvol)).
  reflexivity.
Defined.

(** ** The ranking table, cell by cell *)

Lemma has_column_add_key (cols : list string) (k c : string) :
  has_column (add_key cols k) c = has_column cols c || String.eqb c k.
Proof.
  unfold add_key.
  destruct (existsb (String.eqb k) cols) eqn:Hk.
  - destruct (String.eqb_spec c k) as [-> | _].
    + unfold has_column. rewrite Hk. reflexivity.
    + now rewrite orb_false_r.
  - rewrite has_column_app. cbn. now rewrite orb_false_r.
Qed.

Lemma has_column_add_keys (keys cols : list string) (c : string) :
  has_column (fold_left add_key keys cols) c
  = has_column cols c || has_column keys c.
Proof.
  revert cols. induction keys as [ | k keys IH]; intros cols.
  - cbn. now rewrite orb_false_r.
  - cbn [fold_left]. rewrite IH, has_column_add_key.
    cbn [has_column existsb]. now rewrite orb_assoc.
Qed.

Lemma has_column_rows (rows : list (list (string * json)))
      (cols : list string) (c : string) :
  has_column
    (fold_left (fun cols members => fold_left add_key (map fst members) cols)
               rows cols) c
  = has_column cols c ||
    existsb (fun members => has_column (map fst members) c) rows.
Proof.
  revert cols. induction rows as [ | m rows IH]; intros cols.
  - cbn. now rewrite orb_false_r.
  - cbn [fold_left existsb]. rewrite IH, has_column_add_keys.
    now rewrite orb_assoc.
Qed.

(** A label is a column of the frame exactly when some coin has it as
    a key. *)
Lemma has_column_record_keys (rows : list (list (string * json))) (c : string) :
  has_column (record_keys rows) c = true <->
  exists members, In members rows /\ In c (map fst members).
Proof.
  unfold record_keys. rewrite has_column_rows. cbn [has_column existsb orb].
  rewrite existsb_exists. split.
  - intros (members & Hin & Hc). exists members. split; [exact Hin | ].
    apply existsb_exists in Hc. destruct Hc as (k & Hk & Heq).
    apply String.eqb_eq in Heq. now subst.
  - intros (members & Hin & Hc). exists members. split; [exact Hin | ].
    apply existsb_exists. exists c. split; [exact Hc | apply String.eqb_refl].
Qed.


Lemma dict_rows_objects (rows : list (list (string * json))) :
  dict_rows (map JObj rows) = Some rows.
Proof.
  induction rows as [ | m rows IH]; [reflexivity | ].
  cbn [map dict_rows]. now rewrite IH.
Qed.



(** X20: when one of the five table columns is a key of no coin, the
    global view raises [KeyError] for such a column after the
    "Top 100 Rankings" heading, and no table is drawn. *)
Theorem ranking_table_missing_column
        (rt : runtime) (upstream : request -> result response)
        (rows : list (list (string * json))) (stats : json) (c : string) :
  outcome (get_global_data upstream) = Ok stats ->
  py_truthy stats = false ->
  In c TABLE_COLUMNS ->
  (forall members, In members rows -> ~ In c (map fst members)) ->
  exists missing,
    In missing TABLE_COLUMNS /\
    (forall members, In members rows -> ~ In missing (map fst members)) /\
    global_view rt upstream (JArr (map JObj rows))
    = (Raise (KeyError missing),
       [Show (st_title "Global Crypto Market"); Http global_request;
        Show (st_write "---"); Show (st_subheader "Top 100 Rankings")]).
Proof.
  intros Hstats Hfalsy Hc Hno.
  assert (Hlacks : has_column (record_keys rows) c = false).
  { destruct (has_column (record_keys rows) c) eqn:H; [ | reflexivity].
    apply has_column_record_keys in H. destruct H as (m & Hm & Hk).
    now destruct (Hno m Hm). }
  destruct (find (fun c => negb (existsb (String.eqb c) (record_keys rows)))
                 TABLE_COLUMNS) as [missing | ] eqn:Hfind.
  - exists missing.
    pose proof (find_some _ _ Hfind) as (Hin & Hneg).
    split; [exact Hin | split].
    + intros members Hm Hk.
      fold (has_column (record_keys rows) missing) in Hneg.
      assert (H : has_column (record_keys rows) missing = true)
        by (apply has_column_record_keys; eauto).
      now rewrite H in Hneg.
    + assert (Htable : (df <- pd_DataFrame_records rt (JArr (map JObj rows)) ;;
                        select_columns df TABLE_COLUMNS)%result
                       = Raise (KeyError missing)).
      { unfold pd_DataFrame_records. rewrite dict_rows_objects. cbn [rbind].
        unfold select_columns. cbn [columns]. now rewrite Hfind. }
      unfold pd_DataFrame_records in Htable.
      rewrite dict_rows_objects in Htable. cbn [rbind] in Htable.
      apply M_eq; unfold global_view; run.
      * rewrite Hstats. run. rewrite Hfalsy. run.
        unfold pd_DataFrame_records. rewrite dict_rows_objects. run.
        now rewrite Htable.
      * rewrite get_global_data_trace, Hstats. run. rewrite Hfalsy. run.
        unfold pd_DataFrame_records. rewrite dict_rows_objects. run.
        now rewrite Htable.
  - pose proof (find_none _ _ Hfind c Hc) as Hneg.
    change (negb (has_column (record_keys rows) c) = false) in Hneg.
    now rewrite Hlacks in Hneg.
Qed.

Lemma ranking_table_missing_column_witness :
  exists missing,
    global_view rt0 (fun _ => Raise RequestException)
                (JArr (map JObj [[("name", JStr "A"); ("symbol", JStr "a")]]))
    = (Raise (KeyError missing),
       [Show (st_title "Global Crypto Market"); Http global_request;
        Show (st_write "---"); Show (st_subheader "Top 100 Rankings")]).
Proof.
  destruct (ranking_table_missing_column rt0 (fun _ => Raise RequestException)
              [[("name", JStr "A"); ("symbol", JStr "a")]] JNull "market_cap"
              eq_refl eq_refl)
    as (missing & _ & _ & H).
  - simpl. auto 6.
  - intros members [<- | []] [H | [H | []]]; discriminate H.
  - exists missing. exact H.
Defined.
